(** * Chess for All: the game session and replay state machine

    A shallow embedding of [App] (the React component that owns the
    session state), of [ChessEngine] (the analysis orchestration) and
    of [LichessService] / [LichessOpeningService], together with the
    properties the specification states about them.

    The rules library (chess.js), the network and the text-generation
    SDK are outside the repository: they appear as the class
    [RulesEngine] and the record [Services], and every definition and
    theorem about the application is parametric in them.

    Of [App], the session handlers are embedded: the two effects,
    [makeEngineMove], [makeMove], [onDrop], [handleUndoMove],
    [handleNewGame], [handleStopPgnAnalysis], [handleFlipBoard],
    [handlePlayEngine], [handleColorSelect], [handleChatMode],
    [handleImportPGN], [navigateMove], [handlePrevMove] and
    [handleNextMove], with the [disabled] attributes of their controls,
    and, on a page record of their own, [handleApiKeySubmit],
    [handleChatSubmit], [handleKeyPress] and [handleAnalyze].  The
    Export button and the theme switch are left out. *)

From Stdlib Require Import ZArith String Ascii List Bool Lia.
From stdpp Require Import base option list strings pretty gmap.

Local Open Scope string_scope.
Local Open Scope Z_scope.

(** ** JavaScript values used by the component *)

(** JS strings are modelled as [string], holding the UTF-8 bytes of
    the text as the string literals of this file do.  A newline inside
    a template literal is the character 10. *)
Definition nl : string := String (ascii_of_nat 10) EmptyString.

(** The string made of the given bytes. *)
Definition utf8 (bytes : list nat) : string :=
  foldr (λ b s, String (ascii_of_nat b) s) EmptyString bytes.

(** A JS number holding a move index: an integer or [NaN] (the result
    of [parseInt] on text without digits). *)
Inductive number : Type :=
  | Num (z : Z)
  | NaN.

#[global] Instance number_eq_dec : EqDecision number.
Proof. solve_decision. Defined.

(** [prev + k] on numbers. *)
Definition num_add (a : number) (k : Z) : number :=
  match a with
  | Num z => Num (z + k)
  | NaN => NaN
  end.

(** [n.toString()]. *)
Definition num_toString (a : number) : string :=
  match a with
  | Num z => pretty z
  | NaN => "NaN"
  end.

(** [index >= lo && index < hi]; every comparison with [NaN] is false. *)
Definition num_in_range (lo : Z) (a : number) (hi : Z) : bool :=
  match a with
  | Num z => (lo <=? z) && (z <? hi)
  | NaN => false
  end.

(** *** White space

    The white space and line terminators of ECMAScript, which [trim]
    and [parseInt] strip: TAB, LF, VT, FF, CR and SP, the no-break
    space U+00A0, U+1680, U+2000 to U+200A, the line and paragraph
    separators U+2028 and U+2029, U+202F, U+205F, U+3000 and the byte
    order mark U+FEFF, each in its UTF-8 encoding. *)
Definition white_space : list string :=
  utf8 <$> [ [9]; [10]; [11]; [12]; [13]; [32];
             [194; 160];
             [225; 154; 128];
             [226; 128; 128]; [226; 128; 129]; [226; 128; 130];
             [226; 128; 131]; [226; 128; 132]; [226; 128; 133];
             [226; 128; 134]; [226; 128; 135]; [226; 128; 136];
             [226; 128; 137]; [226; 128; 138];
             [226; 128; 168]; [226; 128; 169]; [226; 128; 175];
             [226; 129; 159];
             [227; 128; 128];
             [239; 187; 191] ]%nat.

(** The two-byte and the three-byte members of [white_space]. *)
Definition is_space2 (c1 c2 : ascii) : bool :=
  bool_decide (String c1 (String c2 EmptyString) ∈ white_space).

Definition is_space3 (c1 c2 c3 : ascii) : bool :=
  bool_decide (String c1 (String c2 (String c3 EmptyString)) ∈ white_space).

(** [s.trimStart()]: [s] without its leading white space. *)
Fixpoint skip_space (s : string) : string :=
  match s with
  | String c1 s1 =>
      if Ascii.is_space c1 then skip_space s1
      else
        match s1 with
        | String c2 s2 =>
            if is_space2 c1 c2 then skip_space s2
            else
              match s2 with
              | String c3 s3 =>
                  if is_space3 c1 c2 c3 then skip_space s3 else s
              | EmptyString => s
              end
        | EmptyString => s
        end
  | EmptyString => s
  end.

(** [s.trimEnd()]: [s] up to its last character that is not white
    space.  A suffix that starts inside a character starts with a
    continuation byte, which no white space does. *)
Fixpoint trimEnd (s : string) : string :=
  match s with
  | String c s' =>
      match skip_space s with
      | EmptyString => EmptyString
      | _ => String c (trimEnd s')
      end
  | EmptyString => EmptyString
  end.

(** [s.trim()] *)
Definition trim (s : string) : string := trimEnd (skip_space s).

(** *** [parseInt(text)] with no radix argument

    Leading white space is skipped, one sign is read, a [0x]/[0X]
    prefix selects radix 16, and the longest prefix of digits is
    converted; no digit at all gives [NaN].  The result is the exact
    integer, which is what the JS double holds below 2^53. *)
Definition digit_value (radix : Z) (c : ascii) : option Z :=
  let n := Z.of_nat (nat_of_ascii c) in
  let v :=
    if (48 <=? n) && (n <=? 57) then Some (n - 48)
    else if (97 <=? n) && (n <=? 122) then Some (n - 97 + 10)
    else if (65 <=? n) && (n <=? 90) then Some (n - 65 + 10)
    else None in
  match v with
  | Some d => if d <? radix then Some d else None
  | None => None
  end.

(** Longest prefix of digits, accumulated left to right; [None] when the
    prefix is empty. *)
Fixpoint read_digits (radix : Z) (acc : option Z) (s : string) : option Z :=
  match s with
  | String c s' =>
      match digit_value radix c with
      | Some d => read_digits radix (Some (default 0 acc * radix + d)) s'
      | None => acc
      end
  | EmptyString => acc
  end.

Definition parseInt (text : string) : number :=
  let s := skip_space text in
  let '(sign, s) :=
    match s with
    | String "-" s' => (-1, s')
    | String "+" s' => (1, s')
    | _ => (1, s)
    end in
  let '(radix, s) :=
    match s with
    | String "0" (String "x" s') => (16, s')
    | String "0" (String "X" s') => (16, s')
    | _ => (10, s)
    end in
  match read_digits radix None s with
  | Some m => Num (sign * m)
  | None => NaN
  end.

(** *** String helpers *)

(** [s.startsWith(p)] *)
Definition startsWith (s p : string) : bool := String.prefix p s.

(** [s.trim().length > 0] *)
Definition trim_nonempty (s : string) : bool :=
  (0 <? String.length (trim s))%nat.

(** [pieces.join('')] *)
Definition join (pieces : list string) : string :=
  foldr String.app EmptyString pieces.

(** [s.split(sep)] for a one-character separator: never empty. *)
Fixpoint split_on (sep : ascii) (s : string) : list string :=
  match s with
  | EmptyString => [EmptyString]
  | String c s' =>
      if Ascii.eqb c sep then EmptyString :: split_on sep s'
      else match split_on sep s' with
           | w :: ws => String c w :: ws
           | [] => [String c EmptyString]
           end
  end.

Definition char_toLowerCase (c : ascii) : ascii :=
  let n := nat_of_ascii c in
  if (Nat.leb 65 n && Nat.leb n 90)%bool then ascii_of_nat (n + 32) else c.

Fixpoint toLowerCase (s : string) : string :=
  match s with
  | String c s' => String (char_toLowerCase c) (toLowerCase s')
  | EmptyString => EmptyString
  end.

(** Truthiness of a JS string: non-empty. *)
Definition truthy (s : string) : bool :=
  match s with EmptyString => false | _ => true end.

(** ** The rules library (chess.js), an external collaborator *)

(** [piece.color] is ['w'] or ['b']. *)
Inductive Color : Type := ColW | ColB.

(** [playerColor] and [boardOrientation] are ['white'] or ['black']. *)
Inductive Side : Type := SideWhite | SideBlack.

#[global] Instance Color_eq_dec : EqDecision Color.
Proof. solve_decision. Defined.
#[global] Instance Side_eq_dec : EqDecision Side.
Proof. solve_decision. Defined.

(** What [chess.get(square)] returns: [piece.type] is one of
    ['p' 'n' 'b' 'r' 'q' 'k']. *)
Record Piece : Type := { ptype : string; pcolor : Color }.

(** The argument of [chess.move]: a SAN string, or an object
    [{ from, to, promotion }] whose [promotion] may be [undefined]. *)
Inductive MoveArg : Type :=
  | MoveSan (san : string)
  | MoveObj (from to : string) (promotion : option string).

(** The object [chess.move] returns for a legal move. *)
Record Move : Type :=
  { san : string; mfrom : string; mto : string; mpromotion : option string }.

(** The three ways a call to [chess.move] can end.  The application
    guards against both failure conventions ([if (result)] and
    [try/catch]), so both are kept. *)
Inductive MoveOutcome (C : Type) : Type :=
  | Moved (c : C) (m : Move)
  | MoveNull
  | MoveThrows.
Arguments Moved {C} c m.
Arguments MoveNull {C}.
Arguments MoveThrows {C}.

(** A [Chess] object is used as a value: the application copies it
    ([new Chess(game.fen())]) before every mutation. *)
Class RulesEngine : Type := {
  Chess : Type;
  (** [new Chess()] *)
  newChess : Chess;
  (** [new Chess(fen)], also [new Chess().load(fen)]; [None] when it throws *)
  newChessFen : string -> option Chess;
  (** [new Chess().loadPgn(text)]; [None] when it throws *)
  loadPgn : string -> option Chess;
  fen : Chess -> string;
  history : Chess -> list string;
  turn : Chess -> Color;
  isGameOver : Chess -> bool;
  get : Chess -> string -> option Piece;
  board : Chess -> list (list (option Piece));
  (** legal moves in SAN, [chess.moves({ verbose: true }).map(m => m.san)] *)
  moves : Chess -> list string;
  move : Chess -> MoveArg -> MoveOutcome Chess
}.


(** ** Data exchanged with the remote services *)

(** One principal variation of a cloud evaluation. *)
Record Pv : Type :=
  { pv_moves : string; cp : option Z; mate : option Z }.

Record LichessEvaluation : Type :=
  { ev_fen : string; knodes : Z; depth : Z; pvs : list Pv }.

Record Opening : Type := { eco : string; name : string }.

(** The opening explorer's answer.  The per-move and per-game tables
    are read by the text formatter only and are carried opaquely. *)
Record OpeningExplorerResponse : Type :=
  { white : Z; black : Z; draws : Z; opening : option Opening;
    explorer_tables : string }.

(** [AnalysisResult]; [evaluation] is a JS double. *)
Record AnalysisResult (Score : Type) : Type := {
  summary : string;
  detailedAnalysis : string;
  bestMove : string;
  pv : list string;
  evaluation : Score;
  positionalThemes : list string;
  tacticalThemes : list string;
  lichessEval : option string;
  openingInfo : option string
}.
Arguments summary {_} _.
Arguments detailedAnalysis {_} _.
Arguments bestMove {_} _.
Arguments pv {_} _.
Arguments evaluation {_} _.
Arguments positionalThemes {_} _.
Arguments tacticalThemes {_} _.
Arguments lichessEval {_} _.
Arguments openingInfo {_} _.

(** A request that leaves the browser. *)
Inductive Request : Type :=
  | ReqCloudEval (fen : string) (multiPv : Z)
  | ReqOpeningExplorer (fen : string) (play : list string)
  | ReqGenerateContent (prompt : string).

(** Everything the application obtains from outside the repository
    besides the rules library: the answers of the three remote
    services, the SDK constructor, the markdown stripper, and the
    floating-point parts of the code (number formatting with [toFixed]
    and the material score), which are not modelled bit for bit. *)
Record Services `{E : RulesEngine} : Type := {
  (** JS double *)
  Score : Type;
  score_zero : Score;
  (** body of the [cloud-eval] answer; [None] on 404, on a non-2xx
      status and on a network error *)
  cloud_eval : string -> Z -> option LichessEvaluation;
  (** body of the masters explorer answer; [None] on any failure *)
  explorer : string -> list string -> option OpeningExplorerResponse;
  (** [new GoogleGenerativeAI(key).getGenerativeModel(...)]: the model
      handle, [None] when the SDK throws *)
  sdk_model : string -> option string;
  (** [(await model.generateContent(prompt)).response.text()];
      [None] when the promise rejects *)
  generate : string -> option string;
  markdownToTxt : string -> string;
  (** the text [formatEvaluation] builds for a non-null evaluation *)
  render_evaluation : LichessEvaluation -> string;
  (** the text [formatOpeningInfo] builds for a non-null answer *)
  render_opening : OpeningExplorerResponse -> list string -> string;
  (** [ChessEngine.evaluatePosition] *)
  evaluatePosition : Chess -> Score
}.
Arguments Score {_} _.
Arguments score_zero {_} _.
Arguments cloud_eval {_} _ _ _.
Arguments explorer {_} _ _ _.
Arguments sdk_model {_} _ _.
Arguments generate {_} _ _.
Arguments markdownToTxt {_} _ _.
Arguments render_evaluation {_} _ _.
Arguments render_opening {_} _ _ _.
Arguments evaluatePosition {_} _ _.

(** The mutable fields of a [ChessEngine] object. *)
Record EngineState : Type := {
  genAI : option string;
  model : option string;
  apiKey : string;
  isInitialized : bool
}.

(** One entry of the chat transcript. *)
Record ChatEntry : Type := { role : string; content : string }.

(** How a call ends: with a value, or by throwing. *)
Inductive Outcome (A : Type) : Type :=
  | Returned (a : A)
  | Threw.
Arguments Returned {A} a.
Arguments Threw {A}.

Section App.

Context `{E : RulesEngine} (svc : Services).

Abbreviation Analysis := (AnalysisResult (Score svc)).

(** ** The component state *)

(** The [useState] cells of [App] that the session handlers read or
    write. *)
Record Session : Type := {
  game : Chess;
  analysis : option Analysis;
  boardOrientation : Side;
  playingAgainstEngine : bool;
  engineThinking : bool;
  moveHistory : list string;
  chatMode : bool;
  chatHistory : list ChatEntry;
  showColorModal : bool;
  playerColor : Side;
  currentMoveIndex : number;
  fullMoveHistory : list string;
  isPgnMode : bool;
  originalPgn : string
}.

(** The initial values given to [useState]. *)
Definition initialSession : Session :=
  {| game := newChess; analysis := None; boardOrientation := SideWhite;
     playingAgainstEngine := false; engineThinking := false;
     moveHistory := []; chatMode := false; chatHistory := [];
     showColorModal := false; playerColor := SideWhite;
     currentMoveIndex := Num (-1); fullMoveHistory := [];
     isPgnMode := false; originalPgn := "" |}.

Definition with_game (v : Chess) (s : Session) : Session :=
  {| game := v; analysis := analysis s; boardOrientation := boardOrientation
     s; playingAgainstEngine := playingAgainstEngine s; engineThinking :=
     engineThinking s; moveHistory := moveHistory s; chatMode := chatMode s;
     chatHistory := chatHistory s; showColorModal := showColorModal s;
     playerColor := playerColor s; currentMoveIndex := currentMoveIndex s;
     fullMoveHistory := fullMoveHistory s; isPgnMode := isPgnMode s;
     originalPgn := originalPgn s |}.
Definition with_analysis (v : option Analysis) (s : Session) : Session :=
  {| game := game s; analysis := v; boardOrientation := boardOrientation s;
     playingAgainstEngine := playingAgainstEngine s; engineThinking :=
     engineThinking s; moveHistory := moveHistory s; chatMode := chatMode s;
     chatHistory := chatHistory s; showColorModal := showColorModal s;
     playerColor := playerColor s; currentMoveIndex := currentMoveIndex s;
     fullMoveHistory := fullMoveHistory s; isPgnMode := isPgnMode s;
     originalPgn := originalPgn s |}.
Definition with_boardOrientation (v : Side) (s : Session) : Session :=
  {| game := game s; analysis := analysis s; boardOrientation := v;
     playingAgainstEngine := playingAgainstEngine s; engineThinking :=
     engineThinking s; moveHistory := moveHistory s; chatMode := chatMode s;
     chatHistory := chatHistory s; showColorModal := showColorModal s;
     playerColor := playerColor s; currentMoveIndex := currentMoveIndex s;
     fullMoveHistory := fullMoveHistory s; isPgnMode := isPgnMode s;
     originalPgn := originalPgn s |}.
Definition with_playingAgainstEngine (v : bool) (s : Session) : Session :=
  {| game := game s; analysis := analysis s; boardOrientation :=
     boardOrientation s; playingAgainstEngine := v; engineThinking :=
     engineThinking s; moveHistory := moveHistory s; chatMode := chatMode s;
     chatHistory := chatHistory s; showColorModal := showColorModal s;
     playerColor := playerColor s; currentMoveIndex := currentMoveIndex s;
     fullMoveHistory := fullMoveHistory s; isPgnMode := isPgnMode s;
     originalPgn := originalPgn s |}.
Definition with_engineThinking (v : bool) (s : Session) : Session :=
  {| game := game s; analysis := analysis s; boardOrientation :=
     boardOrientation s; playingAgainstEngine := playingAgainstEngine s;
     engineThinking := v; moveHistory := moveHistory s; chatMode := chatMode s;
     chatHistory := chatHistory s; showColorModal := showColorModal s;
     playerColor := playerColor s; currentMoveIndex := currentMoveIndex s;
     fullMoveHistory := fullMoveHistory s; isPgnMode := isPgnMode s;
     originalPgn := originalPgn s |}.
Definition with_moveHistory (v : list string) (s : Session) : Session :=
  {| game := game s; analysis := analysis s; boardOrientation :=
     boardOrientation s; playingAgainstEngine := playingAgainstEngine s;
     engineThinking := engineThinking s; moveHistory := v; chatMode := chatMode
     s; chatHistory := chatHistory s; showColorModal := showColorModal s;
     playerColor := playerColor s; currentMoveIndex := currentMoveIndex s;
     fullMoveHistory := fullMoveHistory s; isPgnMode := isPgnMode s;
     originalPgn := originalPgn s |}.
Definition with_chatMode (v : bool) (s : Session) : Session :=
  {| game := game s; analysis := analysis s; boardOrientation :=
     boardOrientation s; playingAgainstEngine := playingAgainstEngine s;
     engineThinking := engineThinking s; moveHistory := moveHistory s; chatMode
     := v; chatHistory := chatHistory s; showColorModal := showColorModal s;
     playerColor := playerColor s; currentMoveIndex := currentMoveIndex s;
     fullMoveHistory := fullMoveHistory s; isPgnMode := isPgnMode s;
     originalPgn := originalPgn s |}.
Definition with_chatHistory (v : list ChatEntry) (s : Session) : Session :=
  {| game := game s; analysis := analysis s; boardOrientation :=
     boardOrientation s; playingAgainstEngine := playingAgainstEngine s;
     engineThinking := engineThinking s; moveHistory := moveHistory s; chatMode
     := chatMode s; chatHistory := v; showColorModal := showColorModal s;
     playerColor := playerColor s; currentMoveIndex := currentMoveIndex s;
     fullMoveHistory := fullMoveHistory s; isPgnMode := isPgnMode s;
     originalPgn := originalPgn s |}.
Definition with_showColorModal (v : bool) (s : Session) : Session :=
  {| game := game s; analysis := analysis s; boardOrientation :=
     boardOrientation s; playingAgainstEngine := playingAgainstEngine s;
     engineThinking := engineThinking s; moveHistory := moveHistory s; chatMode
     := chatMode s; chatHistory := chatHistory s; showColorModal := v;
     playerColor := playerColor s; currentMoveIndex := currentMoveIndex s;
     fullMoveHistory := fullMoveHistory s; isPgnMode := isPgnMode s;
     originalPgn := originalPgn s |}.
Definition with_playerColor (v : Side) (s : Session) : Session :=
  {| game := game s; analysis := analysis s; boardOrientation :=
     boardOrientation s; playingAgainstEngine := playingAgainstEngine s;
     engineThinking := engineThinking s; moveHistory := moveHistory s; chatMode
     := chatMode s; chatHistory := chatHistory s; showColorModal :=
     showColorModal s; playerColor := v; currentMoveIndex := currentMoveIndex
     s; fullMoveHistory := fullMoveHistory s; isPgnMode := isPgnMode s;
     originalPgn := originalPgn s |}.
Definition with_currentMoveIndex (v : number) (s : Session) : Session :=
  {| game := game s; analysis := analysis s; boardOrientation :=
     boardOrientation s; playingAgainstEngine := playingAgainstEngine s;
     engineThinking := engineThinking s; moveHistory := moveHistory s; chatMode
     := chatMode s; chatHistory := chatHistory s; showColorModal :=
     showColorModal s; playerColor := playerColor s; currentMoveIndex := v;
     fullMoveHistory := fullMoveHistory s; isPgnMode := isPgnMode s;
     originalPgn := originalPgn s |}.
Definition with_fullMoveHistory (v : list string) (s : Session) : Session :=
  {| game := game s; analysis := analysis s; boardOrientation :=
     boardOrientation s; playingAgainstEngine := playingAgainstEngine s;
     engineThinking := engineThinking s; moveHistory := moveHistory s; chatMode
     := chatMode s; chatHistory := chatHistory s; showColorModal :=
     showColorModal s; playerColor := playerColor s; currentMoveIndex :=
     currentMoveIndex s; fullMoveHistory := v; isPgnMode := isPgnMode s;
     originalPgn := originalPgn s |}.
Definition with_isPgnMode (v : bool) (s : Session) : Session :=
  {| game := game s; analysis := analysis s; boardOrientation :=
     boardOrientation s; playingAgainstEngine := playingAgainstEngine s;
     engineThinking := engineThinking s; moveHistory := moveHistory s; chatMode
     := chatMode s; chatHistory := chatHistory s; showColorModal :=
     showColorModal s; playerColor := playerColor s; currentMoveIndex :=
     currentMoveIndex s; fullMoveHistory := fullMoveHistory s; isPgnMode := v;
     originalPgn := originalPgn s |}.
Definition with_originalPgn (v : string) (s : Session) : Session :=
  {| game := game s; analysis := analysis s; boardOrientation :=
     boardOrientation s; playingAgainstEngine := playingAgainstEngine s;
     engineThinking := engineThinking s; moveHistory := moveHistory s; chatMode
     := chatMode s; chatHistory := chatHistory s; showColorModal :=
     showColorModal s; playerColor := playerColor s; currentMoveIndex :=
     currentMoveIndex s; fullMoveHistory := fullMoveHistory s; isPgnMode :=
     isPgnMode s; originalPgn := v |}.
(** What a handler can touch: the React state, the [ChessEngine]
    object, [localStorage], the alerts shown, the value of the hidden
    file input, and the requests sent so far. *)
Record World : Type := {
  react : Session;
  engine : EngineState;
  localStorage : gmap string string;
  alerts : list string;
  fileInputValue : string;
  requests : list Request
}.

Definition with_react (v : Session) (w : World) : World :=
  {| react := v; engine := engine w; localStorage := localStorage w; alerts
     := alerts w; fileInputValue := fileInputValue w; requests := requests w |}.
Definition with_engine (v : EngineState) (w : World) : World :=
  {| react := react w; engine := v; localStorage := localStorage w; alerts
     := alerts w; fileInputValue := fileInputValue w; requests := requests w |}.
Definition with_localStorage (v : gmap string string) (w : World) : World :=
  {| react := react w; engine := engine w; localStorage := v; alerts :=
     alerts w; fileInputValue := fileInputValue w; requests := requests w |}.
Definition with_alerts (v : list string) (w : World) : World :=
  {| react := react w; engine := engine w; localStorage := localStorage w;
     alerts := v; fileInputValue := fileInputValue w; requests := requests w |}.
Definition with_fileInputValue (v : string) (w : World) : World :=
  {| react := react w; engine := engine w; localStorage := localStorage w;
     alerts := alerts w; fileInputValue := v; requests := requests w |}.
Definition with_requests (v : list Request) (w : World) : World :=
  {| react := react w; engine := engine w; localStorage := localStorage w;
     alerts := alerts w; fileInputValue := fileInputValue w; requests := v |}.
(** ** Handlers as computations

    A handler runs against the world and either returns or throws.
    State written before a throw stays written, as a queued React
    update or a [localStorage] write does. *)
Definition H (A : Type) : Type := World -> World * Outcome A.

#[global] Instance H_ret : MRet H := λ A a w, (w, Returned a).

#[global] Instance H_bind : MBind H := λ A B f m w,
  match m w with
  | (w', Returned a) => f a w'
  | (w', Threw) => (w', Threw)
  end.

Definition throw {A : Type} : H A := λ w, (w, Threw).

(** [try { body } catch { handler }] *)
Definition try_catch {A : Type} (body handler : H A) : H A := λ w,
  match body w with
  | (w', Returned a) => (w', Returned a)
  | (w', Threw) => handler w'
  end.

Definition modify (f : World -> World) : H unit := λ w, (f w, Returned tt).

(** A value the library hands back, or the exception it raises. *)
Definition orThrow {A : Type} (o : option A) : H A :=
  match o with
  | Some a => mret a
  | None => throw
  end.

Definition send (r : Request) : H unit :=
  modify (λ w, with_requests (requests w ++ [r]) w).

(** ** [LichessService] *)

(** [getPositionEvaluation(fen, multiPv)]: one request; its own
    [try/catch] turns every failure into [null]. *)
Definition getPositionEvaluation (fen : string) (multiPv : Z)
  : H (option LichessEvaluation) :=
  _ ← send (ReqCloudEval fen multiPv);
  mret (cloud_eval svc fen multiPv).

Definition formatEvaluation (evaluation : option LichessEvaluation) : string :=
  match evaluation with
  | None => "Position not found in Lichess database"
  | Some ev => render_evaluation svc ev
  end.

(** [extractFirstMove(evaluation)]: the first UCI move of the first
    line, converted to SAN on the position the answer names. *)
Definition extractFirstMove (evaluation : option LichessEvaluation)
  : option string :=
  match evaluation with
  | None => None
  | Some ev =>
      match pvs ev with
      | [] => None
      | pv0 :: _ =>
          if negb (truthy (pv_moves pv0)) then None
          else
            match split_on " " (pv_moves pv0) with
            | [] => None
            | uciMove :: _ =>
                match newChessFen (ev_fen ev) with
                | None => None
                | Some chess =>
                    let from := substring 0 2 uciMove in
                    let to := substring 2 2 uciMove in
                    let promotion :=
                      if (4 <? String.length uciMove)%nat
                      then String.get 4 uciMove else None in
                    match move chess
                            (MoveObj from to
                               ((λ c, String (char_toLowerCase c) "")
                                  <$> promotion)) with
                    | Moved _ m => Some (san m)
                    | MoveNull => None
                    | MoveThrows => None
                    end
                end
            end
      end
  end.

(** ** [LichessOpeningService] *)

Definition getOpeningInfo (fen : string) (play : list string)
  : H (option OpeningExplorerResponse) :=
  _ ← send (ReqOpeningExplorer fen play);
  mret (explorer svc fen play).

Definition formatOpeningInfo (info : option OpeningExplorerResponse)
    (moveHistory : list string) : string :=
  match info with
  | None => "Opening information not available"
  | Some i => render_opening svc i moveHistory
  end.

(** The [map] of [convertMovesToUCI], replaying on one mutable board:
    a rejected move leaves an empty string, a throwing one aborts. *)
Fixpoint convertMovesToUCI_from (chess : Chess) (moveHistory : list string)
  : option (list string) :=
  match moveHistory with
  | [] => Some []
  | mv :: rest =>
      match move chess (MoveSan mv) with
      | Moved c r =>
          cons (mfrom r +:+ mto r +:+ default "" (mpromotion r))
            <$> convertMovesToUCI_from c rest
      | MoveNull => cons "" <$> convertMovesToUCI_from chess rest
      | MoveThrows => None
      end
  end.

Definition convertMovesToUCI (moveHistory : list string)
  : option (list string) :=
  List.filter truthy <$> convertMovesToUCI_from newChess moveHistory.

(** ** [ChessEngine] *)

Definition newEngine : EngineState :=
  {| genAI := None; model := None; apiKey := ""; isInitialized := false |}.

Definition validateApiKey (key : string) : bool :=
  trim_nonempty key && startsWith key "AIza".

Definition initializeAI (eng : EngineState) : EngineState :=
  if negb (validateApiKey (apiKey eng)) then
    {| genAI := genAI eng; model := model eng; apiKey := apiKey eng;
       isInitialized := false |}
  else
    match sdk_model svc (apiKey eng) with
    | Some m =>
        {| genAI := Some (apiKey eng); model := Some m;
           apiKey := apiKey eng; isInitialized := true |}
    | None =>
        {| genAI := None; model := None; apiKey := apiKey eng;
           isInitialized := false |}
    end.

Definition setApiKey (key : string) (eng : EngineState) : EngineState * bool :=
  if validateApiKey key then
    (initializeAI {| genAI := genAI eng; model := model eng; apiKey := key;
                     isInitialized := isInitialized eng |}, true)
  else (eng, false).

Definition findBestMoves (chess : Chess) : list string :=
  if isGameOver chess then []
  else take 5%nat (List.filter truthy (moves chess)).

Definition counts_as_piece (sq : option Piece) : bool :=
  match sq with
  | Some p => negb (String.eqb (ptype p) "k") && negb (String.eqb (ptype p) "p")
  | None => false
  end.

Definition getGamePhase (chess : Chess) : string :=
  let moveCount := length (history chess) in
  let pieces := length (List.filter counts_as_piece (concat (board chess))) in
  if (pieces <? 6)%nat then "Endgame"
  else if (moveCount <? 15)%nat then "Opening"
  else "Middlegame".

Definition fallbackAnalysis (chess : Chess) : Analysis :=
  {| summary := "API Key Required";
     detailedAnalysis :=
       "Please provide a valid Gemini API key to enable position analysis.";
     bestMove := "";
     pv := [];
     evaluation := score_zero svc;
     positionalThemes := [];
     tacticalThemes := [];
     lichessEval := None;
     openingInfo := None |}.

(** [moveHistory.length % 2 === 0 ? 'Black' : 'White'], [null] for an
    empty history. *)
Definition lastMoveColor (moveHistory : list string) : option string :=
  if (0 <? length moveHistory)%nat then
    Some (if Nat.even (length moveHistory) then "Black" else "White")
  else None.

Definition previousMove (moveHistory : list string) : option string :=
  if (1 <? length moveHistory)%nat
  then moveHistory !! (length moveHistory - 2)%nat else None.

(** Truthiness of a string that may be [null]. *)
Definition present (o : option string) : bool :=
  match o with
  | Some s => truthy s
  | None => false
  end.

(** The prompt assembled inside [analyzePosition]. *)
Definition analysisPrompt (fen phase : string) (moveHistory : list string)
    (lichessEval : option LichessEvaluation) (lichessAnalysis : string)
    (openingInfo : option OpeningExplorerResponse) : string :=
  let lastMove := last moveHistory in
  let color := default "null" (lastMoveColor moveHistory) in
  "As a chess grandmaster, analyze this " +:+ toLowerCase phase
    +:+ " position:" +:+ nl +:+ nl
  +:+ "Current Position (FEN): " +:+ fen +:+ nl +:+ nl
  +:+ (if (0 <? length moveHistory)%nat then
         "Recent moves:" +:+ nl
         +:+ (if present (previousMove moveHistory) then
                "- Previous move: " +:+ default "" (previousMove moveHistory)
                +:+ " (" +:+ (if String.eqb color "White" then "Black" else "White")
                +:+ ")" +:+ nl
              else "")
         +:+ (if present lastMove then
                "- Last move: " +:+ default "" lastMove
                +:+ " (" +:+ color +:+ ")" +:+ nl
              else "")
       else "")
  +:+ (match lichessEval with
       | Some _ => nl +:+ "Lichess evaluation:" +:+ nl +:+ lichessAnalysis +:+ nl
       | None => ""
       end)
  +:+ (match openingInfo ≫= opening with
       | Some o =>
           nl +:+ "Opening: " +:+ name o +:+ " (ECO: " +:+ eco o +:+ ")" +:+ nl
       | None => ""
       end)
  +:+ nl +:+ "Provide a detailed analysis including:" +:+ nl
  +:+ "      1. Evaluation of the last move ("
  +:+ (if present lastMove then default "" lastMove +:+ " by " +:+ color
       else "no moves yet")
  +:+ ")" +:+ nl
  +:+ "      2. Current position assessment" +:+ nl
  +:+ "      3. Key strategic themes and plans for this "
  +:+ toLowerCase phase +:+ nl
  +:+ "      4. Tactical opportunities" +:+ nl
  +:+ "      5. Best continuation for both sides" +:+ nl +:+ nl
  +:+ "      Format your response with clear sections and bullet points." +:+ nl
  +:+ "      Keep the analysis practical and actionable.".

(** The guard at the top of [analyzePosition]:
    [!this.isInitialized || !this.model || !this.validateApiKey(this.apiKey)]. *)
Definition narrativeUnavailable (eng : EngineState) : bool :=
  negb (isInitialized eng)
  || negb (bool_decide (is_Some (model eng)))
  || negb (validateApiKey (apiKey eng)).

(** [analyzePosition(fen)], reading the fields of the engine object at
    the time of the call. *)
Definition analyzePosition (fen0 : string) : H Analysis :=
  try_catch
    (fun w0 =>
       (if narrativeUnavailable (engine w0) then
          chess ← orThrow (newChessFen fen0);
          mret (fallbackAnalysis chess)
        else
          chess ← orThrow (newChessFen fen0);
          let moveHistory := history chess in
          let phase := getGamePhase chess in
          lichessEval ← getPositionEvaluation fen0 3;
          let lichessAnalysis := formatEvaluation lichessEval in
          uciMoves ← orThrow (convertMovesToUCI moveHistory);
          openingInfo ← getOpeningInfo (fen chess) uciMoves;
          let formattedOpeningInfo :=
            formatOpeningInfo openingInfo moveHistory in
          let prompt :=
            analysisPrompt fen0 phase moveHistory lichessEval lichessAnalysis
              openingInfo in
          _ ← send (ReqGenerateContent prompt);
          markdownAnalysis ← orThrow (generate svc prompt);
          if negb (truthy markdownAnalysis) then throw
          else
            let plainTextAnalysis := markdownToTxt svc markdownAnalysis in
            let bestMoves := findBestMoves chess in
            mret {| summary := "Position analyzed by Gemini AI (" +:+ phase +:+ ")";
                    detailedAnalysis := plainTextAnalysis;
                    bestMove := default "" (head bestMoves);
                    pv := bestMoves;
                    evaluation := evaluatePosition svc chess;
                    positionalThemes := [];
                    tacticalThemes := [];
                    lichessEval := Some lichessAnalysis;
                    openingInfo := Some formattedOpeningInfo |}) w0)
    (chess ← orThrow (newChessFen fen0);
     mret (fallbackAnalysis chess)).

(** [getBestMove(fen)]: the first move of the cloud evaluation, checked
    again for legality; [null] in every other case, never a throw. *)
Definition getBestMove (fen0 : string) : H (option string) :=
  try_catch
    (chess ← orThrow (newChessFen fen0);
     if isGameOver chess then mret None
     else
       lichessEval ← getPositionEvaluation fen0 1;
       match lichessEval with
       | None => mret None
       | Some _ =>
           match extractFirstMove lichessEval with
           | None => mret None
           | Some bestMove =>
               if negb (truthy bestMove) then mret None
               else
                 match newChessFen fen0 with
                 | None => mret None
                 | Some tempChess =>
                     match move tempChess (MoveSan bestMove) with
                     | Moved _ m => mret (Some (san m))
                     | MoveNull => mret None
                     | MoveThrows => mret None
                     end
                 end
           end
       end)
    (mret None).

(** ** [App]: setters, storage and dialogs *)

(** [setX(v)] is [setState (with_X v)]; the functional form
    [setX(prev => f(prev))] is [setState (λ s, with_X (f (X s)) s)].
    Values a handler reads from its closure come from the session of
    the render that created it, the argument [snap] of each handler. *)
Definition setState (f : Session -> Session) : H unit :=
  modify (λ w, with_react (f (react w)) w).

Definition getItem (key : string) : H (option string) :=
  λ w, (w, Returned (localStorage w !! key)).

Definition setItem (key value : string) : H unit :=
  modify (λ w, with_localStorage (<[key := value]> (localStorage w)) w).

Definition removeItem (key : string) : H unit :=
  modify (λ w, with_localStorage (delete key (localStorage w)) w).

Definition alert (message : string) : H unit :=
  modify (λ w, with_alerts (alerts w ++ [message]) w).

(** [moves.forEach(move => tempGame.move(move))] on a board: a move
    the library answers with [null] is passed over, a throwing one
    aborts the loop. *)
Fixpoint replay (tempGame : Chess) (sans : list string) : option Chess :=
  match sans with
  | [] => Some tempGame
  | mv :: rest =>
      match move tempGame (MoveSan mv) with
      | Moved c _ => replay c rest
      | MoveNull => replay tempGame rest
      | MoveThrows => None
      end
  end.

(** The callback given to [history().map((_, index) => ...)]. *)
Definition positionAfter (hist : list string) (index : nat) : option string :=
  fen <$> replay newChess (take (S index) hist).

(** The whole [map]: the positions after each ply, or the exception
    of the first replay that throws. *)
Definition replayPositions (hist : list string) : option (list string) :=
  mapM (positionAfter hist) (seq 0 (length hist)).

(** *** The two effects *)

(** The mount effect that restores a saved replay. *)
Definition restoreEffect : H unit :=
  savedPgn ← getItem "chessPgn";
  savedMoveIndex ← getItem "chessMoveIndex";
  if present savedPgn then
    try_catch
      (newGame ← orThrow (loadPgn (default "" savedPgn));
       _ ← setState (with_game newGame);
       _ ← setState (with_originalPgn (default "" savedPgn));
       _ ← setState (with_fullMoveHistory (history newGame));
       positions ← orThrow (replayPositions (history newGame));
       _ ← setState (with_moveHistory positions);
       _ ← setState (with_currentMoveIndex
                       (if present savedMoveIndex
                        then parseInt (default "" savedMoveIndex)
                        else Num (-1)));
       setState (with_isPgnMode true))
      (_ ← removeItem "chessPgn";
       removeItem "chessMoveIndex")
  else mret tt.

(** The effect with dependencies [isPgnMode, originalPgn, currentMoveIndex]. *)
Definition persistEffect (s : Session) : H unit :=
  if isPgnMode s && truthy (originalPgn s) then
    _ ← setItem "chessPgn" (originalPgn s);
    setItem "chessMoveIndex" (num_toString (currentMoveIndex s))
  else mret tt.

Definition persistDeps (s : Session) : bool * string * number :=
  (isPgnMode s, originalPgn s, currentMoveIndex s).

(** *** Moves *)

Definition makeEngineMove (currentGame : Chess) : H unit :=
  if negb (isGameOver currentGame) then
    _ ← setState (with_engineThinking true);
    engineMove ← getBestMove (fen currentGame);
    _ ← (if present engineMove then
           engineGameCopy ← orThrow (newChessFen (fen currentGame));
           moved ← match move engineGameCopy
                           (MoveSan (default "" engineMove)) with
                   | Moved c _ => mret c
                   | MoveNull => mret engineGameCopy
                   | MoveThrows => throw
                   end;
           _ ← setState (with_game moved);
           setState (λ s, with_moveHistory (moveHistory s ++ [fen moved]) s)
         else mret tt);
    setState (with_engineThinking false)
  else mret tt.

(** The argument of [makeMove]. *)
Record MoveRequest : Type :=
  { mv_from : string; mv_to : string; mv_promotion : option string }.

(** [piece?.type === 'p' && ((piece.color === 'w' && move.to[1] === '8')
    || (piece.color === 'b' && move.to[1] === '1'))] *)
Definition isPromotion (gameCopy : Chess) (mv : MoveRequest) : bool :=
  match get gameCopy (mv_from mv) with
  | Some piece =>
      String.eqb (ptype piece) "p"
      && ((bool_decide (pcolor piece = ColW)
           && bool_decide (String.get 1 (mv_to mv) = Some "8"%char))
          || (bool_decide (pcolor piece = ColB)
              && bool_decide (String.get 1 (mv_to mv) = Some "1"%char)))
  | None => false
  end.

(** The object [makeMove] hands to [gameCopy.move]. *)
Definition engineRequest (gameCopy : Chess) (mv : MoveRequest) : MoveArg :=
  MoveObj (mv_from mv) (mv_to mv)
    (if isPromotion gameCopy mv then Some "q" else None).

(** The text of the [ai] chat entry. *)
Definition formatResponse (a : Analysis) : string :=
  (if present (openingInfo a) then
     "📚 Opening Information:" +:+ nl +:+ default "" (openingInfo a)
     +:+ nl +:+ nl
   else "")
  +:+ (if present (lichessEval a) then
         "📊 Lichess Analysis:" +:+ nl +:+ default "" (lichessEval a)
         +:+ nl +:+ nl
       else "")
  +:+ "🤖 AI Analysis:" +:+ nl +:+ detailedAnalysis a.

(** [makeMove(move)]; the value is the one the promise resolves to. *)
Definition makeMove (snap : Session) (mv : MoveRequest) : H bool :=
  if isPgnMode snap then mret false
  else
    try_catch
      (gameCopy ← orThrow (newChessFen (fen (game snap)));
       match move gameCopy (engineRequest gameCopy mv) with
       | MoveThrows => throw
       | MoveNull => mret false
       | Moved gameCopy result =>
           _ ← setState (with_game gameCopy);
           _ ← setState (λ s, with_moveHistory (moveHistory s ++ [fen gameCopy]) s);
           _ ← setState (λ s, with_currentMoveIndex
                                (num_add (currentMoveIndex s) 1) s);
           _ ← setState (with_fullMoveHistory (history gameCopy));
           _ ← (if chatMode snap then
                  _ ← setState (λ s, with_chatHistory
                          (chatHistory s ++
                             [{| role := "player";
                                 content := "Played move: " +:+ san result |}]) s);
                  _ ← setState (with_engineThinking true);
                  a ← analyzePosition (fen gameCopy);
                  _ ← setState (λ s, with_chatHistory
                          (chatHistory s ++
                             [{| role := "ai"; content := formatResponse a |}]) s);
                  setState (with_engineThinking false)
                else if playingAgainstEngine snap
                        && negb (isGameOver gameCopy)
                        && ((bool_decide (turn gameCopy = ColB)
                             && bool_decide (playerColor snap = SideWhite))
                            || (bool_decide (turn gameCopy = ColW)
                                && bool_decide (playerColor snap = SideBlack)))
                then makeEngineMove gameCopy
                else mret tt);
           mret true
       end)
      (mret false).

Definition onDrop (snap : Session) (sourceSquare targetSquare : string)
  : H bool :=
  if isPgnMode snap then mret false
  else if playingAgainstEngine snap
          && ((bool_decide (turn (game snap) = ColW)
               && bool_decide (playerColor snap = SideBlack))
              || (bool_decide (turn (game snap) = ColB)
                  && bool_decide (playerColor snap = SideWhite)))
  then mret false
  else makeMove snap {| mv_from := sourceSquare; mv_to := targetSquare;
                        mv_promotion := None |}.

(** [array.pop()] as used on the copy: the array without its last
    element, unchanged when empty. *)
Definition pop (l : list string) : list string := removelast l.

Definition handleUndoMove (snap : Session) : H unit :=
  if isPgnMode snap then mret tt
  else if (0 <? length (moveHistory snap))%nat then
    let newHistory := pop (moveHistory snap) in
    let newHistory :=
      if playingAgainstEngine snap then pop newHistory else newHistory in
    let lastPosition :=
      if present (last newHistory) then default "" (last newHistory)
      else fen newChess in
    newGame ← orThrow (newChessFen lastPosition);
    _ ← setState (with_game newGame);
    _ ← setState (with_moveHistory newHistory);
    setState (λ s, with_currentMoveIndex
                     (num_add (currentMoveIndex s)
                        (- (if playingAgainstEngine snap then 2 else 1))) s)
  else mret tt.

(** *** Game and mode controls *)

Definition handleNewGame : H unit :=
  _ ← setState (with_game newChess);
  _ ← setState (with_playingAgainstEngine false);
  _ ← setState (with_chatMode false);
  _ ← setState (with_analysis None);
  _ ← setState (with_moveHistory []);
  _ ← setState (with_fullMoveHistory []);
  _ ← setState (with_chatHistory []);
  _ ← setState (with_boardOrientation SideWhite);
  _ ← setState (with_playerColor SideWhite);
  _ ← setState (with_currentMoveIndex (Num (-1)));
  _ ← setState (with_isPgnMode false);
  _ ← setState (with_originalPgn "");
  _ ← removeItem "chessPgn";
  removeItem "chessMoveIndex".

Definition handleStopPgnAnalysis : H unit :=
  _ ← setState (with_isPgnMode false);
  _ ← setState (with_originalPgn "");
  _ ← removeItem "chessPgn";
  _ ← removeItem "chessMoveIndex";
  handleNewGame.

Definition flip (side : Side) : Side :=
  match side with
  | SideWhite => SideBlack
  | SideBlack => SideWhite
  end.

Definition handleFlipBoard : H unit :=
  setState (λ s, with_boardOrientation (flip (boardOrientation s)) s).

Definition handlePlayEngine : H unit :=
  _ ← setState (with_showColorModal true);
  setState (with_chatMode false).

Definition handleColorSelect (color : Side) : H unit :=
  _ ← setState (with_playerColor color);
  _ ← setState (with_boardOrientation color);
  _ ← setState (with_playingAgainstEngine true);
  _ ← setState (with_showColorModal false);
  let newGame := newChess in
  _ ← setState (with_game newGame);
  _ ← setState (with_analysis None);
  _ ← setState (with_moveHistory []);
  _ ← setState (with_chatHistory []);
  _ ← setState (with_currentMoveIndex (Num (-1)));
  if bool_decide (color = SideBlack) then makeEngineMove newGame
  else mret tt.

Definition handleChatMode : H unit :=
  _ ← setState (λ s, with_chatMode (negb (chatMode s)) s);
  _ ← setState (with_playingAgainstEngine false);
  _ ← setState (with_game newChess);
  _ ← setState (with_analysis None);
  _ ← setState (with_moveHistory []);
  _ ← setState (with_chatHistory []);
  setState (with_currentMoveIndex (Num (-1))).

(** *** Import and navigation *)

(** [handleImportPGN(event)]: [file] is the text of the chosen file,
    [None] when the dialog delivered no file.  The input is reset at
    once; the reader's [onload] callback runs afterwards. *)
Definition handleImportPGN (file : option string) : H unit :=
  match file with
  | None => mret tt
  | Some pgnText =>
      _ ← modify (with_fileInputValue "");
      try_catch
        (newGame ← orThrow (loadPgn pgnText);
         _ ← setState (with_game newGame);
         _ ← setState (with_originalPgn pgnText);
         _ ← setState (with_fullMoveHistory (history newGame));
         positions ← orThrow (replayPositions (history newGame));
         _ ← setState (with_moveHistory positions);
         let lastIndex := Num (Z.of_nat (length (history newGame)) - 1) in
         _ ← setState (with_currentMoveIndex lastIndex);
         _ ← setState (with_isPgnMode true);
         _ ← setItem "chessPgn" pgnText;
         setItem "chessMoveIndex" (num_toString lastIndex))
        (alert "Invalid PGN file format")
  end.

Definition navigateMove (snap : Session) (index : number) : H unit :=
  if num_in_range (-1) index (Z.of_nat (length (moveHistory snap))) then
    _ ← setState (with_currentMoveIndex index);
    _ ← (if bool_decide (index = Num (-1)) then setState (with_game newChess)
         else
           newGame ← orThrow
             (match index with
              | Num z => moveHistory snap !! Z.to_nat z
              | NaN => None
              end ≫= newChessFen);
           setState (with_game newGame));
    if isPgnMode snap then setItem "chessMoveIndex" (num_toString index)
    else mret tt
  else mret tt.

Definition handlePrevMove (snap : Session) : H unit :=
  navigateMove snap (num_add (currentMoveIndex snap) (-1)).

Definition handleNextMove (snap : Session) : H unit :=
  navigateMove snap (num_add (currentMoveIndex snap) 1).

(** ** Events and renders *)

(** The world when the page loads with the given storage. *)
Definition freshWorld (storage : gmap string string) : World :=
  {| react := initialSession; engine := newEngine; localStorage := storage;
     alerts := []; fileInputValue := ""; requests := [] |}.

(** The persist effect runs after a render whose dependencies changed. *)
Definition afterRender (before : Session) (w : World) : World :=
  if bool_decide (persistDeps before = persistDeps (react w)) then w
  else fst (persistEffect (react w) w).

(** Mounting: both effects run on the first render, in source order,
    then the component re-renders with the restored state. *)
Definition mount (storage : gmap string string) : World :=
  let w0 := freshWorld storage in
  let w1 := fst (restoreEffect w0) in
  let w2 := fst (persistEffect (react w0) w1) in
  afterRender (react w0) w2.

(** What the user can do to the page. *)
Inductive Event : Type :=
  | Drop (sourceSquare targetSquare : string)
  | ClickTakeBack
  | ClickNewGame
  | ClickFlipBoard
  | ClickEngineButton
  | ClickColor (color : Side)
  | ClickCancelColor
  | ClickChatMode
  | ChooseFile (file : option string)
  | ClickStopPgn
  | ClickPrev
  | ClickNext
  | ClickStart
  | ClickMove (index : nat).

(** Whether the control is rendered and not [disabled].  The colour
    dialog is an overlay with no [disabled] attribute of its own: the
    controls of the page keep their handlers while it is open. *)
Definition enabled (s : Session) (e : Event) : bool :=
  match e with
  | ClickColor _ | ClickCancelColor => showColorModal s
  | ClickTakeBack =>
      negb (bool_decide (length (moveHistory s) = 0%nat) || isPgnMode s)
  | ClickEngineButton => negb (chatMode s || isPgnMode s)
  | ClickChatMode => negb (playingAgainstEngine s || isPgnMode s)
  | ClickStopPgn => isPgnMode s
  | ClickPrev =>
      (0 <? length (moveHistory s))%nat
      && negb (match currentMoveIndex s with
               | Num z => z <=? -1
               | NaN => false
               end)
  | ClickNext =>
      (0 <? length (moveHistory s))%nat
      && negb (match currentMoveIndex s with
               | Num z => Z.of_nat (length (moveHistory s)) - 1 <=? z
               | NaN => false
               end)
  | ClickStart => (0 <? length (moveHistory s))%nat
  | ClickMove index =>
      (0 <? length (moveHistory s))%nat
      && (index <? length (fullMoveHistory s))%nat
  | _ => true
  end.

(** The handler bound to each control. *)
Definition handler (snap : Session) (e : Event) : H unit :=
  match e with
  | Drop sourceSquare targetSquare =>
      _ ← onDrop snap sourceSquare targetSquare; mret tt
  | ClickTakeBack => handleUndoMove snap
  | ClickNewGame => handleNewGame
  | ClickFlipBoard => handleFlipBoard
  | ClickEngineButton =>
      if playingAgainstEngine snap then handleNewGame else handlePlayEngine
  | ClickColor color => handleColorSelect color
  | ClickCancelColor => setState (with_showColorModal false)
  | ClickChatMode => handleChatMode
  | ChooseFile file => handleImportPGN file
  | ClickStopPgn => handleStopPgnAnalysis
  | ClickPrev => handlePrevMove snap
  | ClickNext => handleNextMove snap
  | ClickStart => navigateMove snap (Num (-1))
  | ClickMove index => navigateMove snap (Num (Z.of_nat index))
  end.

(** One event: its handler, then the render it causes. *)
Definition dispatch (w : World) (e : Event) : World :=
  afterRender (react w) (fst (handler (react w) e w)).

(** A sequence of events; an event on a disabled control does nothing. *)
Definition step (w : World) (e : Event) : World :=
  if enabled (react w) e then dispatch w e else w.

Definition run (w : World) (es : list Event) : World :=
  foldl step w es.

(** ** The properties of section 8, as predicates on a world *)

(** The position on the board, [game.fen()]. *)
Definition displayed (s : Session) : string := fen (game s).

(** The replay cursor is within [-1, len - 1]. *)
Definition cursor_in_range (s : Session) : Prop :=
  exists z, currentMoveIndex s = Num z
            /\ -1 <= z <= Z.of_nat (length (moveHistory s)) - 1.

(** The board shows the logged position the cursor points at. *)
Definition cursor_shows_board (s : Session) : Prop :=
  match currentMoveIndex s with
  | Num z =>
      if z =? -1 then displayed s = fen newChess
      else moveHistory s !! Z.to_nat z = Some (displayed s)
  | NaN => False
  end.

(** At most one of the three mode flags is set. *)
Definition modes_exclusive (s : Session) : Prop :=
  (Nat.b2n (playingAgainstEngine s) + Nat.b2n (chatMode s)
   + Nat.b2n (isPgnMode s) <= 1)%nat.

End App.

Arguments game {_ _} _.
Arguments analysis {_ _} _.
Arguments boardOrientation {_ _} _.
Arguments playingAgainstEngine {_ _} _.
Arguments engineThinking {_ _} _.
Arguments moveHistory {_ _} _.
Arguments chatMode {_ _} _.
Arguments chatHistory {_ _} _.
Arguments showColorModal {_ _} _.
Arguments playerColor {_ _} _.
Arguments currentMoveIndex {_ _} _.
Arguments fullMoveHistory {_ _} _.
Arguments isPgnMode {_ _} _.
Arguments originalPgn {_ _} _.
Arguments react {_ _} _.
Arguments engine {_ _} _.
Arguments localStorage {_ _} _.
Arguments alerts {_ _} _.
Arguments fileInputValue {_ _} _.
Arguments requests {_ _} _.
Arguments with_game {_ _} _ _.
Arguments with_analysis {_ _} _ _.
Arguments with_boardOrientation {_ _} _ _.
Arguments with_playingAgainstEngine {_ _} _ _.
Arguments with_engineThinking {_ _} _ _.
Arguments with_moveHistory {_ _} _ _.
Arguments with_chatMode {_ _} _ _.
Arguments with_chatHistory {_ _} _ _.
Arguments with_showColorModal {_ _} _ _.
Arguments with_playerColor {_ _} _ _.
Arguments with_currentMoveIndex {_ _} _ _.
Arguments with_fullMoveHistory {_ _} _ _.
Arguments with_isPgnMode {_ _} _ _.
Arguments with_originalPgn {_ _} _ _.
Arguments with_react {_ _} _ _.
Arguments with_engine {_ _} _ _.
Arguments with_localStorage {_ _} _ _.
Arguments with_alerts {_ _} _ _.
Arguments with_fileInputValue {_ _} _ _.
Arguments with_requests {_ _} _ _.
Arguments displayed {_ _} _.
Arguments enabled {_ _} _ _.
Arguments cursor_in_range {_ _} _.
Arguments cursor_shows_board {_ _} _.
Arguments modes_exclusive {_ _} _.
Arguments persistDeps {_ _} _.

(** ** A cut-down rules library for concrete runs

    Five positions of real chess: the start, the positions after
    1. e4 and 1. e4 e5, and a pawn ending with its position after
    a7-a8=Q+.  Reading a board ([fen], [get], [board], [turn]) is the
    real thing on these positions; the only moves known are the three
    that link them, and any other request is answered the way chess.js
    1.x answers an illegal move, by throwing. *)
Module MiniChess.

Inductive Node : Type := Start | AfterE4 | AfterE4E5 | PawnA7 | QueenA8.

#[global] Instance Node_eq_dec : EqDecision Node.
Proof. solve_decision. Defined.

Record Obj : Type := { node : Node; hist : list string }.

Definition node_fen (n : Node) : string :=
  match n with
  | Start => "rnbqkbnr/pppppppp/8/8/8/8/PPPPPPPP/RNBQKBNR w KQkq - 0 1"
  | AfterE4 => "rnbqkbnr/pppppppp/8/8/4P3/8/PPPP1PPP/RNBQKBNR b KQkq - 0 1"
  | AfterE4E5 => "rnbqkbnr/pppp1ppp/8/4p3/4P3/8/PPPP1PPP/RNBQKBNR w KQkq - 0 2"
  | PawnA7 => "4k3/P7/8/8/8/8/8/4K3 w - - 0 1"
  | QueenA8 => "Q3k3/8/8/8/8/8/8/4K3 b - - 0 1"
  end.

Definition nodes : list Node := [Start; AfterE4; AfterE4E5; PawnA7; QueenA8].

Definition node_of_fen (f : string) : option Node :=
  head (List.filter (λ n, String.eqb (node_fen n) f) nodes).

(** The piece a FEN letter stands for. *)
Definition piece_of_char (c : ascii) : option Piece :=
  let l := char_toLowerCase c in
  if existsb (Ascii.eqb l) ["p"; "n"; "b"; "r"; "q"; "k"]%char then
    Some {| ptype := String l "";
            pcolor := if Ascii.eqb l c then ColB else ColW |}
  else None.

(** One rank of the placement field. *)
Fixpoint parse_rank (s : string) : list (option Piece) :=
  match s with
  | EmptyString => []
  | String c s' =>
      match Ascii.is_nat c with
      | Some k => replicate k None ++ parse_rank s'
      | None => piece_of_char c :: parse_rank s'
      end
  end.

(** The board of a FEN, rank 8 first. *)
Definition fen_board (f : string) : list (list (option Piece)) :=
  parse_rank <$> split_on "/" (default "" (head (split_on " " f))).

Definition fen_get (f : string) (square : string) : option Piece :=
  match String.get 0 square, String.get 1 square with
  | Some file, Some rank =>
      let col := (nat_of_ascii file - 97)%nat in
      let row := (56 - nat_of_ascii rank)%nat in
      mjoin (fen_board f !! row ≫= (.!! col))
  | _, _ => None
  end.

Definition fen_turn (f : string) : Color :=
  match split_on " " f !! 1%nat with
  | Some "b" => ColB
  | _ => ColW
  end.

(** The three known moves, by squares and by SAN. *)
Definition step_obj (n : Node) (from to : string) (promotion : option string)
  : option (Node * Move) :=
  match n, from, to, promotion with
  | Start, "e2", "e4", None =>
      Some (AfterE4, {| san := "e4"; mfrom := "e2"; mto := "e4";
                        mpromotion := None |})
  | AfterE4, "e7", "e5", None =>
      Some (AfterE4E5, {| san := "e5"; mfrom := "e7"; mto := "e5";
                          mpromotion := None |})
  | PawnA7, "a7", "a8", Some "q" =>
      Some (QueenA8, {| san := "a8=Q+"; mfrom := "a7"; mto := "a8";
                        mpromotion := Some "q" |})
  | _, _, _, _ => None
  end.

Definition step_san (n : Node) (s : string) : option (Node * Move) :=
  match n, s with
  | Start, "e4" => step_obj Start "e2" "e4" None
  | AfterE4, "e5" => step_obj AfterE4 "e7" "e5" None
  | PawnA7, "a8=Q+" => step_obj PawnA7 "a7" "a8" (Some "q")
  | _, _ => None
  end.

Definition obj_move (c : Obj) (a : MoveArg) : MoveOutcome Obj :=
  let r :=
    match a with
    | MoveSan s => step_san (node c) s
    | MoveObj from to promotion => step_obj (node c) from to promotion
    end in
  match r with
  | Some (n, m) => Moved {| node := n; hist := hist c ++ [san m] |} m
  | None => MoveThrows
  end.

Definition fresh : Obj := {| node := Start; hist := [] |}.

Fixpoint play (c : Obj) (sans : list string) : option Obj :=
  match sans with
  | [] => Some c
  | s :: rest =>
      match obj_move c (MoveSan s) with
      | Moved c' _ => play c' rest
      | _ => None
      end
  end.

(** Movetext without headers: the tokens between blanks, move numbers
    (tokens ending in a dot) dropped, played from the start. *)
Definition is_move_number (tok : string) : bool :=
  match String.get (String.length tok - 1) tok with
  | Some "."%char => true
  | _ => false
  end.

Definition obj_loadPgn (text : string) : option Obj :=
  play fresh
    (List.filter (λ tok, truthy tok && negb (is_move_number tok))
       (split_on " " text)).

Definition known_moves (n : Node) : list string :=
  match n with
  | Start => ["e4"]
  | AfterE4 => ["e5"]
  | PawnA7 => ["a8=Q+"]
  | _ => []
  end.

#[global] Instance rules : RulesEngine := {|
  Chess := Obj;
  newChess := fresh;
  newChessFen := λ f, (λ n, {| node := n; hist := [] |}) <$> node_of_fen f;
  loadPgn := obj_loadPgn;
  fen := λ c, node_fen (node c);
  history := hist;
  turn := λ c, fen_turn (node_fen (node c));
  isGameOver := λ _, false;
  get := λ c, fen_get (node_fen (node c));
  board := λ c, fen_board (node_fen (node c));
  moves := λ c, known_moves (node c);
  move := obj_move
|}.

(** Remote services that know the two opening positions. *)
Definition services : Services := {|
  Score := Z;
  score_zero := 0;
  cloud_eval := λ f multiPv,
    match node_of_fen f with
    | Some Start =>
        Some {| ev_fen := f; knodes := 1000; depth := 40;
                pvs := [{| pv_moves := "e2e4 e7e5 g1f3"; cp := Some 18;
                           mate := None |}] |}
    | Some AfterE4 =>
        Some {| ev_fen := f; knodes := 1000; depth := 40;
                pvs := [{| pv_moves := "e7e5 g1f3"; cp := Some 20;
                           mate := None |}] |}
    | _ => None
    end;
  explorer := λ f play,
    match node_of_fen f with
    | Some AfterE4 =>
        Some {| white := 10; black := 8; draws := 12;
                opening := Some {| eco := "B00"; name := "King's Pawn" |};
                explorer_tables := "" |}
    | _ => None
    end;
  sdk_model := λ _, Some "gemini-1.5-flash";
  generate := λ _, Some "A quiet position.";
  markdownToTxt := λ t, t;
  render_evaluation := λ ev, "Depth: " +:+ pretty (depth ev);
  render_opening := λ i _, default "" (name <$> opening i);
  evaluatePosition := λ _, 0
|}.

(** A key of the accepted shape. *)
Definition goodKey : string := "AIzaSyExample".

(** A session standing on the pawn ending. *)
Definition endingSession : Session services :=
  with_game {| node := PawnA7; hist := [] |} (initialSession services).

End MiniChess.

(** ** Concrete pages *)

Section Pages.

Import MiniChess.

(** The page as first loaded, with empty storage. *)
Definition page : World services := freshWorld services ∅.

(** Play against the engine as white, then 1. e4; the engine answers
    1... e5. *)
Definition engineGame : World services :=
  run services page [ClickEngineButton; ClickColor SideWhite; Drop "e2" "e4"].

(** Play against the engine as black: the engine opens with 1. e4. *)
Definition engineOpened : World services :=
  run services page [ClickEngineButton; ClickColor SideBlack].

(** Chat mode switched on, then a two-ply game imported. *)
Definition chatThenImport : World services :=
  run services page [ClickChatMode; ChooseFile (Some "1. e4 e5")].

(** A two-ply game imported on the fresh page. *)
Definition replayPage : World services :=
  run services page [ChooseFile (Some "1. e4 e5")].

(** Storage left by a two-ply replay, with a cursor text of 7. *)
Definition savedReplay : gmap string string :=
  <["chessPgn" := "1. e4 e5"]> (<["chessMoveIndex" := "7"]> ∅).

(** A promotion request that names a knight. *)
Definition underpromotion : MoveRequest :=
  {| mv_from := "a7"; mv_to := "a8"; mv_promotion := Some "n" |}.

End Pages.

(** ** Statements of the specification, for comparison with the code *)

(** "The moved piece is a pawn reaching the last rank for its color
    (rank 8 for white, rank 1 for black)." *)
Definition pawn_reaches_last_rank `{E : RulesEngine}
    (gameCopy : Chess) (mv : MoveRequest) : Prop :=
  exists piece,
    get gameCopy (mv_from mv) = Some piece
    /\ ptype piece = "p"
    /\ ((pcolor piece = ColW /\ String.get 1 (mv_to mv) = Some "8"%char)
        \/ (pcolor piece = ColB /\ String.get 1 (mv_to mv) = Some "1"%char)).

(** "[arg] is passed to the Rules Engine": what [makeMove] does is
    the library's answer to [arg] on its copy of the board.  An
    accepted move is the position logged at the next index, and its
    game gives the notation history; a refused one leaves the world as
    it was and resolves to false. *)
Definition passed_to_rules `{E : RulesEngine} (svc : Services)
    (w : World svc) (mv : MoveRequest) (gameCopy : Chess) (arg : MoveArg)
  : Prop :=
  let r := makeMove svc (react w) mv w in
  match move gameCopy arg with
  | Moved moved result =>
      moveHistory (react (fst r)) !! length (moveHistory (react w))
      = Some (fen moved)
      /\ fullMoveHistory (react (fst r)) = history moved
  | MoveNull | MoveThrows => r = (w, Returned false)
  end.

(** "Opening/evaluation lookups are not gated on narrative-client
    availability": the lookups are made, the data obtained is in the
    record, and the narrative is the placeholder. *)
Definition lookups_without_narrative `{E : RulesEngine} (svc : Services)
    (w : World svc) (fen0 : string) : Prop :=
  exists w' a,
    analyzePosition svc fen0 w = (w', Returned a)
    /\ ReqCloudEval fen0 3 ∈ requests w'
    /\ (exists f play, ReqOpeningExplorer f play ∈ requests w')
    /\ (is_Some (cloud_eval svc fen0 3) -> is_Some (lichessEval a))
    /\ detailedAnalysis a
       = "Please provide a valid Gemini API key to enable position analysis.".

(** [z] brought into [lo, hi]. *)
Definition clamp (lo hi z : Z) : Z := Z.max lo (Z.min z hi).

(** "Sets the cursor to the persisted value (clamped to valid range)". *)
Definition restore_clamps `{E : RulesEngine} (svc : Services)
    (storage : gmap string string) : Prop :=
  forall z,
    parseInt (default "" (storage !! "chessMoveIndex")) = Num z ->
    currentMoveIndex (react (mount svc storage))
    = Num (clamp (-1)
             (Z.of_nat (length (moveHistory (react (mount svc storage)))) - 1)
             z).

(** [m] never changes the observation [f] of the session, whether it
    returns or throws. *)
Definition preserves `{E : RulesEngine} {svc : Services} {A B : Type}
    (f : Session svc -> B) (m : H svc A) : Prop :=
  forall w, f (react (fst (m w))) = f (react w).

(** The engine object after a sequence of [setApiKey] calls. *)
Definition configure `{E : RulesEngine} (svc : Services)
    (keys : list string) : EngineState :=
  foldl (λ eng key, fst (setApiKey svc key eng)) newEngine keys.


(** [m] never changes the observation [f] of the world, whether it
    returns or throws. *)
Definition keeps `{E : RulesEngine} {svc : Services} {A B : Type}
    (f : World svc -> B) (m : H svc A) : Prop :=
  forall w, f (fst (m w)) = f w.

(** The three mode flags and the colour dialog. *)
Definition flags `{E : RulesEngine} {svc : Services} (s : Session svc)
  : bool * bool * bool * bool :=
  (playingAgainstEngine s, chatMode s, isPgnMode s, showColorModal s).

(** The two events that can set a second mode flag: a file import
    while engine play or chat mode is on, and a colour chosen after
    chat mode or a replay was started behind the open dialog. *)
Definition mode_safe `{E : RulesEngine} {svc : Services} (s : Session svc)
    (e : Event) : Prop :=
  match e with
  | ChooseFile (Some _) => playingAgainstEngine s = false /\ chatMode s = false
  | ClickColor _ => chatMode s = false /\ isPgnMode s = false
  | _ => True
  end.

(** Every event of the run arrives in a state that is safe for it. *)
Fixpoint mode_safe_run `{E : RulesEngine} (svc : Services)
    (w : World svc) (es : list Event) : Prop :=
  match es with
  | [] => True
  | e :: rest =>
      mode_safe (react w) e /\ mode_safe_run svc (step svc w e) rest
  end.

(** In replay mode the cursor is within the log. *)
Definition replay_inv `{E : RulesEngine} {svc : Services} (s : Session svc)
  : Prop :=
  isPgnMode s = true -> cursor_in_range s.

(** What [makeMove] does after recording an accepted move: the chat
    commentary, or the engine's reply when it is the engine's turn. *)
Definition afterAcceptedMove `{E : RulesEngine} (svc : Services)
    (snap : Session svc) (gameCopy : Chess) (result : Move) : H svc unit :=
  if chatMode snap then
    _ ← setState svc (λ s, with_chatHistory
            (chatHistory s ++
               [{| role := "player";
                   content := "Played move: " +:+ san result |}]) s);
    _ ← setState svc (with_engineThinking true);
    a ← analyzePosition svc (fen gameCopy);
    _ ← setState svc (λ s, with_chatHistory
            (chatHistory s ++
               [{| role := "ai"; content := formatResponse svc a |}]) s);
    setState svc (with_engineThinking false)
  else if playingAgainstEngine snap
          && negb (isGameOver gameCopy)
          && ((bool_decide (turn gameCopy = ColB)
               && bool_decide (playerColor snap = SideWhite))
              || (bool_decide (turn gameCopy = ColW)
                  && bool_decide (playerColor snap = SideBlack)))
  then makeEngineMove svc gameCopy
  else mret tt.

(** The session once an accepted move is recorded. *)
Definition recordMove `{E : RulesEngine} {svc : Services}
    (moved : Chess) (s : Session svc) : Session svc :=
  with_fullMoveHistory (history moved)
    (with_currentMoveIndex (num_add (currentMoveIndex s) 1)
       (with_moveHistory (moveHistory s ++ [fen moved])
          (with_game moved s))).

(** The persisted resume state mirrors the session: in replay mode with
    a non-empty PGN text, storage holds that text and the cursor. *)
Definition synced `{E : RulesEngine} {svc : Services} (w : World svc) : Prop :=
  isPgnMode (react w) = true ->
  truthy (originalPgn (react w)) = true ->
  localStorage w !! "chessPgn" = Some (originalPgn (react w))
  /\ localStorage w !! "chessMoveIndex"
     = Some (num_toString (currentMoveIndex (react w))).

(** The board [navigateMove] loads for an index within the log: a new
    game for -1, else the logged position, [None] when loading it
    throws. *)
Definition navigationTarget `{E : RulesEngine} {svc : Services}
    (snap : Session svc) (index : number) : option Chess :=
  if bool_decide (index = Num (-1)) then Some newChess
  else match index with
       | Num z => moveHistory snap !! Z.to_nat z
       | NaN => None
       end ≫= newChessFen.


(** [apiKeyStatus]: valid, invalid or pending. *)
Inductive KeyStatus : Type := KeyValid | KeyInvalid | KeyPending.

Section Dialogs.

Context `{E : RulesEngine} (svc : Services).

(** The page with the state cells of the key dialog, the chat box and
    the Analyze button.  The [apiKey] cell is [apiKeyInput] here, as
    [apiKey] names the engine's field. *)
Record Page : Type := {
  world : World svc;
  isAnalyzing : bool;
  chatInput : string;
  apiKeyInput : string;
  showApiKey : bool;
  apiKeyStatus : KeyStatus
}.

Definition with_world (v : World svc) (p : Page) : Page :=
  {| world := v; isAnalyzing := isAnalyzing p; chatInput := chatInput p;
     apiKeyInput := apiKeyInput p; showApiKey := showApiKey p;
     apiKeyStatus := apiKeyStatus p |}.

(** The page as first rendered; [envKey] is
    [import.meta.env.VITE_GEMINI_API_KEY || '']. *)
Definition initialPage (storage : gmap string string) (envKey : string)
  : Page :=
  {| world := mount svc storage; isAnalyzing := false; chatInput := "";
     apiKeyInput := envKey; showApiKey := false; apiKeyStatus := KeyPending |}.

(** [handleApiKeySubmit]; [engine.setApiKey] does not throw, so the
    [catch] branch is never taken. *)
Definition handleApiKeySubmit (p : Page) : Page :=
  let eng := fst (setApiKey svc (apiKeyInput p) (engine (world p))) in
  {| world := with_engine eng (world p);
     isAnalyzing := isAnalyzing p;
     chatInput := chatInput p;
     apiKeyInput := apiKeyInput p;
     showApiKey :=
       if startsWith (apiKeyInput p) "AIza" then false else showApiKey p;
     apiKeyStatus :=
       if startsWith (apiKeyInput p) "AIza" then KeyValid else KeyInvalid |}.

(** The reply shown when the analysis throws. *)
Definition apology : string :=
  "I apologize, but I encountered an error analyzing the position.".

Definition say (speaker text : string) (w : World svc) : World svc :=
  with_react
    (with_chatHistory
       (chatHistory (react w) ++ [{| role := speaker; content := text |}])
       (react w)) w.

Definition thinking (b : bool) (w : World svc) : World svc :=
  with_react (with_engineThinking b (react w)) w.

(** [handleChatSubmit] *)
Definition handleChatSubmit (p : Page) : Page :=
  if negb (truthy (trim (chatInput p))) then p
  else
    let userMessage := trim (chatInput p) in
    let w1 := thinking true (say "user" userMessage (world p)) in
    let w2 :=
      match analyzePosition svc (fen (game (react (world p)))) w1 with
      | (w', Returned a) => say "ai" (formatResponse svc a) w'
      | (w', Threw) => say "ai" apology w'
      end in
    {| world := thinking false w2;
       isAnalyzing := isAnalyzing p;
       chatInput := "";
       apiKeyInput := apiKeyInput p;
       showApiKey := showApiKey p;
       apiKeyStatus := apiKeyStatus p |}.

(** [handleKeyPress]: Enter without Shift submits the chat box. *)
Definition handleKeyPress (key : string) (shiftKey : bool) (p : Page) : Page :=
  if String.eqb key "Enter" && negb shiftKey then handleChatSubmit p else p.

(** [handleAnalyze]; a throw from [analyzePosition] is not caught and
    leaves [isAnalyzing] set. *)
Definition handleAnalyze (p : Page) : Page :=
  match analyzePosition svc (fen (game (react (world p)))) (world p) with
  | (w', Returned a) =>
      {| world := with_react (with_analysis (Some a) (react w')) w';
         isAnalyzing := false;
         chatInput := chatInput p;
         apiKeyInput := apiKeyInput p;
         showApiKey := showApiKey p;
         apiKeyStatus := apiKeyStatus p |}
  | (w', Threw) =>
      {| world := w';
         isAnalyzing := true;
         chatInput := chatInput p;
         apiKeyInput := apiKeyInput p;
         showApiKey := showApiKey p;
         apiKeyStatus := apiKeyStatus p |}
  end.

End Dialogs.

Arguments world {_ _} _.
Arguments isAnalyzing {_ _} _.
Arguments chatInput {_ _} _.
Arguments apiKeyInput {_ _} _.
Arguments showApiKey {_ _} _.
Arguments apiKeyStatus {_ _} _.


(** ** More concrete pages *)

Section MorePages.

Import MiniChess.

(** The same services with a text generator that always fails. *)
Definition silentServices : Services :=
  {| Score := Z;
     score_zero := 0;
     cloud_eval := cloud_eval services;
     explorer := explorer services;
     sdk_model := sdk_model services;
     generate := λ _, None;
     markdownToTxt := markdownToTxt services;
     render_evaluation := render_evaluation services;
     render_opening := render_opening services;
     evaluatePosition := λ _, 0 |}.

(** The fresh page once the engine holds an accepted key. *)
Definition keyedPage : World services :=
  with_engine (fst (setApiKey services goodKey newEngine)) page.

Definition keyedSilentPage : World silentServices :=
  with_engine (fst (setApiKey silentServices goodKey newEngine))
    (freshWorld silentServices ∅).

(** Engine play as black before the engine has opened. *)
Definition waitingForEngine : Session services :=
  with_playingAgainstEngine true
    (with_playerColor SideBlack (initialSession services)).

(** Chat mode switched on. *)
Definition chatPage : World services := run services page [ClickChatMode].

(** A board on which the cloud has no evaluation. *)
Definition afterTwoPlies : Obj := {| node := AfterE4E5; hist := [] |}.

(** Storage with a cursor but no game, and with a game that does not
    parse. *)
Definition cursorOnly : gmap string string := <["chessMoveIndex" := "3"]> ∅.

Definition unreadable : gmap string string :=
  <["chessPgn" := "not a pgn"]> (<["chessMoveIndex" := "3"]> ∅).

(** Chat on and off, an import, and a game against the engine. *)
Definition mixedRun : list Event :=
  [ClickChatMode; ClickChatMode; ChooseFile (Some "1. e4 e5"); ClickStopPgn;
   ClickEngineButton; ClickColor SideWhite; Drop "e2" "e4"].

(** A replay with some navigation. *)
Definition replayRun : list Event :=
  [ChooseFile (Some "1. e4 e5"); ClickPrev; ClickPrev; ClickPrev; ClickNext].

(** The pawn ending on the page, and the pawn dropped on a8. *)
Definition endingPage : World services := with_react endingSession page.

Definition pawnDrop : MoveRequest :=
  {| mv_from := "a7"; mv_to := "a8"; mv_promotion := None |}.

(** An import behind the open colour dialog, then the colour. *)
Definition dialogRun : list Event :=
  [ClickEngineButton; ChooseFile (Some "1. e4 e5"); ClickColor SideBlack].

(** A no-break space and an em space. *)
Definition nbsp : string := utf8 [194; 160]%nat.

Definition emSpace : string := utf8 [226; 128; 131]%nat.

(** A chat box of blanks only, and a question between blanks. *)
Definition blanks : list string := [" "; nbsp; nl; emSpace; nbsp].

Definition question : string :=
  nbsp +:+ "  why e4? " +:+ emSpace +:+ nl.

(** The chat box holding the given text. *)
Definition asking (text : string) : Page services :=
  {| world := chatPage; isAnalyzing := false; chatInput := text;
     apiKeyInput := ""; showApiKey := false; apiKeyStatus := KeyPending |}.

End MorePages.

(** * Properties *)

Section Properties.

Context `{E : RulesEngine} (svc : Services).

Ltac unfold_h :=
  unfold orThrow, throw, try_catch, setState, setItem, removeItem, getItem,
    alert, send, modify;
  unfold mbind, mret, H_bind, H_ret.

(** ** Frame lemmas: what a computation leaves alone *)

Section Preserves.

Context {B : Type} (f : Session svc -> B).

Lemma preserves_ret {A : Type} (a : A) : preserves f (mret a).
Proof. done. Qed.

Lemma preserves_throw {A : Type} : preserves f (throw svc (A := A)).
Proof. done. Qed.

Lemma preserves_bind {A C : Type} (m : H svc A) (k : A -> H svc C) :
  preserves f m -> (forall a, preserves f (k a)) -> preserves f (m ≫= k).
Proof.
  intros Hm Hk w. unfold mbind, H_bind. specialize (Hm w).
  destruct (m w) as [w1 [a|]]; simpl in *; [|done].
  by rewrite Hk.
Qed.

Lemma preserves_try_catch {A : Type} (body handler : H svc A) :
  preserves f body -> preserves f handler ->
  preserves f (try_catch svc body handler).
Proof.
  intros Hb Hh w. unfold try_catch. specialize (Hb w).
  destruct (body w) as [w1 [a|]]; simpl in *; [done|].
  by rewrite Hh.
Qed.

Lemma preserves_orThrow {A : Type} (o : option A) :
  preserves f (orThrow svc o).
Proof. by destruct o. Qed.

Lemma preserves_setState (g : Session svc -> Session svc) :
  (forall s, f (g s) = f s) -> preserves f (setState svc g).
Proof. intros Hg w. apply Hg. Qed.

Lemma preserves_outside (g : World svc -> World svc) :
  (forall w, react (g w) = react w) -> preserves f (modify svc g).
Proof. intros Hg w. simpl. by rewrite Hg. Qed.

Lemma preserves_send (r : Request) : preserves f (send svc r).
Proof. done. Qed.

Lemma preserves_setItem (key value : string) :
  preserves f (setItem svc key value).
Proof. done. Qed.

Lemma preserves_removeItem (key : string) : preserves f (removeItem svc key).
Proof. done. Qed.

Lemma preserves_alert (message : string) : preserves f (alert svc message).
Proof. done. Qed.

(** Asking for the best move only talks to the network. *)
Lemma preserves_getBestMove (fen0 : string) :
  preserves f (getBestMove svc fen0).
Proof.
  unfold getBestMove, getPositionEvaluation.
  apply preserves_try_catch; [|apply preserves_ret].
  apply preserves_bind; [apply preserves_orThrow|intros chess].
  destruct (isGameOver chess); [apply preserves_ret|].
  apply preserves_bind;
    [apply preserves_bind; [apply preserves_send|intros; apply preserves_ret]|].
  intros lichessEval.
  repeat (case_match; try apply preserves_ret).
Qed.

End Preserves.

Ltac preserves_step :=
  lazymatch goal with
  | |- preserves _ (mbind _ _) => apply preserves_bind; [|intros ?]
  | |- preserves _ (mret _) => apply preserves_ret
  | |- preserves _ (throw _) => apply preserves_throw
  | |- preserves _ (orThrow _ _) => apply preserves_orThrow
  | |- preserves _ (try_catch _ _ _) => apply preserves_try_catch
  | |- preserves _ (send _ _) => apply preserves_send
  | |- preserves _ (setItem _ _ _) => apply preserves_setItem
  | |- preserves _ (removeItem _ _) => apply preserves_removeItem
  | |- preserves _ (alert _ _) => apply preserves_alert
  | |- preserves _ (getBestMove _ _) => apply preserves_getBestMove
  | |- preserves _ (setState _ _) =>
      apply preserves_setState; intros; reflexivity
  | |- preserves _ (modify _ _) => apply preserves_outside; intros; reflexivity
  | |- preserves _ (if _ then _ else _) => case_match
  | |- preserves _ (match _ with _ => _ end) => case_match
  | |- preserves _ (let _ := _ in _) => cbv zeta
  end.

(** The engine's reply is logged but the cursor and the notation
    history are not advanced, unlike in [makeMove]. *)
Lemma makeEngineMove_keeps_cursor (currentGame : Chess) :
  preserves currentMoveIndex (makeEngineMove svc currentGame).
Proof. unfold makeEngineMove. repeat preserves_step. Qed.

Lemma makeEngineMove_keeps_fullMoveHistory (currentGame : Chess) :
  preserves fullMoveHistory (makeEngineMove svc currentGame).
Proof. unfold makeEngineMove. repeat preserves_step. Qed.

(** Taking a move back never touches the notation history. *)
Lemma handleUndoMove_keeps_fullMoveHistory (snap : Session svc) :
  preserves fullMoveHistory (handleUndoMove svc snap).
Proof. unfold handleUndoMove. repeat preserves_step. Qed.

(** Importing a game leaves the two other mode flags as they are. *)
Lemma handleImportPGN_keeps_chatMode (file : option string) :
  preserves chatMode (handleImportPGN svc file).
Proof. unfold handleImportPGN. repeat preserves_step. Qed.

Lemma handleImportPGN_keeps_playingAgainstEngine (file : option string) :
  preserves playingAgainstEngine (handleImportPGN svc file).
Proof. unfold handleImportPGN. repeat preserves_step. Qed.

(** ** Renders *)

Lemma afterRender_same (w : World svc) : afterRender svc (react w) w = w.
Proof. unfold afterRender. by rewrite bool_decide_eq_true_2. Qed.

Lemma persistEffect_react (s : Session svc) (w : World svc) :
  react (fst (persistEffect svc s w)) = react w.
Proof.
  unfold persistEffect. by destruct (isPgnMode s && truthy (originalPgn s)).
Qed.

Lemma afterRender_react (s : Session svc) (w : World svc) :
  react (afterRender svc s w) = react w.
Proof. unfold afterRender. case_bool_decide; [done|apply persistEffect_react]. Qed.

(** ** Replaying a parsed game *)

Lemma replayPositions_length (hist positions : list string) :
  replayPositions hist = Some positions -> length positions = length hist.
Proof.
  unfold replayPositions. intros Hm. apply mapM_Some_1, Forall2_length in Hm.
  by rewrite length_seq in Hm.
Qed.

Lemma replayPositions_lookup (hist positions : list string) (i : nat) :
  replayPositions hist = Some positions ->
  (i < length hist)%nat ->
  exists c, replay newChess (take (S i) hist) = Some c
            /\ positions !! i = Some (fen c).
Proof.
  unfold replayPositions. intros Hm Hi. apply mapM_Some_1 in Hm.
  destruct (Forall2_lookup_l _ _ _ i i Hm) as (p & Hp & Hpos).
  { by rewrite lookup_seq_lt. }
  unfold positionAfter in Hpos. apply fmap_Some in Hpos as (c & Hc & ->).
  by exists c.
Qed.

(** The world a fully successful import leaves behind. *)
Lemma handleImportPGN_success (w : World svc) (pgnText : string)
    (newGame : Chess) (positions : list string) :
  loadPgn pgnText = Some newGame ->
  replayPositions (history newGame) = Some positions ->
  let lastIndex := Num (Z.of_nat (length (history newGame)) - 1) in
  handleImportPGN svc (Some pgnText) w
  = (with_localStorage
       (<["chessMoveIndex" := num_toString lastIndex]>
          (<["chessPgn" := pgnText]> (localStorage w)))
       (with_react
          (with_isPgnMode true
             (with_currentMoveIndex lastIndex
                (with_moveHistory positions
                   (with_fullMoveHistory (history newGame)
                      (with_originalPgn pgnText
                         (with_game newGame (react w)))))))
          (with_fileInputValue "" w)),
     Returned tt).
Proof.
  intros Hload Hreplay. unfold handleImportPGN. unfold_h.
  rewrite Hload. simpl. rewrite Hreplay. done.
Qed.

(** When the text loads but replaying it from the standard start
    throws (a game that begins from a set-up position), the alert is
    shown after the board, the PGN text and the notation history have
    already been replaced. *)
Lemma import_replay_failure (w : World svc) (pgnText : string)
    (newGame : Chess) :
  loadPgn pgnText = Some newGame ->
  replayPositions (history newGame) = None ->
  handleImportPGN svc (Some pgnText) w
  = (with_alerts (alerts w ++ ["Invalid PGN file format"])
       (with_react
          (with_fullMoveHistory (history newGame)
             (with_originalPgn pgnText (with_game newGame (react w))))
          (with_fileInputValue "" w)),
     Returned tt).
Proof.
  intros Hload Hreplay. unfold handleImportPGN. unfold_h.
  rewrite Hload. simpl. rewrite Hreplay. done.
Qed.

(** An import shows no alert exactly when the text loads and every
    prefix replays. *)
Lemma import_completes_iff_no_alert (w : World svc) (pgnText : string) :
  alerts (fst (handleImportPGN svc (Some pgnText) w)) = alerts w
  <-> exists newGame positions,
        loadPgn pgnText = Some newGame
        /\ replayPositions (history newGame) = Some positions.
Proof.
  split.
  - intros Hquiet.
    destruct (loadPgn pgnText) as [newGame|] eqn:Hload.
    + destruct (replayPositions (history newGame)) as [positions|] eqn:Hreplay.
      * by exists newGame, positions.
      * rewrite (import_replay_failure _ _ _ Hload Hreplay) in Hquiet.
        simpl in Hquiet. apply (f_equal length) in Hquiet.
        rewrite length_app in Hquiet. simpl in Hquiet. lia.
    + unfold handleImportPGN in Hquiet. unfold_h. rewrite Hload in Hquiet.
      simpl in Hquiet. apply (f_equal length) in Hquiet.
      rewrite length_app in Hquiet. simpl in Hquiet. lia.
  - intros (newGame & positions & Hload & Hreplay).
    by rewrite (handleImportPGN_success _ _ _ _ Hload Hreplay).
Qed.

(** The code's promotion test is the specification's predicate. *)
Lemma isPromotion_spec (gameCopy : Chess) (mv : MoveRequest) :
  isPromotion gameCopy mv = true <-> pawn_reaches_last_rank gameCopy mv.
Proof.
  unfold isPromotion, pawn_reaches_last_rank. split.
  - destruct (get gameCopy (mv_from mv)) as [piece|] eqn:Hget; [|done].
    rewrite andb_true_iff, orb_true_iff, !andb_true_iff, !bool_decide_eq_true.
    intros [Hp Hrank]. exists piece.
    split; [done|]. split; [by apply String.eqb_eq|done].
  - intros (piece & -> & Hp & Hrank).
    rewrite andb_true_iff, orb_true_iff, !andb_true_iff, !bool_decide_eq_true.
    split; [by apply String.eqb_eq|done].
Qed.

(** An engine that was never given a key, or only keys of the wrong
    shape, cannot generate narratives. *)
Lemma setApiKey_invalid (key : string) (eng : EngineState) :
  validateApiKey key = false -> setApiKey svc key eng = (eng, false).
Proof. intros Hk. unfold setApiKey. by rewrite Hk. Qed.

Lemma validateApiKey_prefix (key : string) :
  startsWith key "AIza" = false -> validateApiKey key = false.
Proof. intros Hk. unfold validateApiKey. rewrite Hk. apply andb_false_r. Qed.

Lemma newEngine_unavailable : narrativeUnavailable newEngine = true.
Proof. done. Qed.

Lemma invalid_key_unavailable (eng : EngineState) :
  startsWith (apiKey eng) "AIza" = false -> narrativeUnavailable eng = true.
Proof.
  intros Hk. unfold narrativeUnavailable.
  rewrite (validateApiKey_prefix _ Hk). simpl. apply orb_true_r.
Qed.

(** ** Live play: a move and its take-back *)

(** What [handleUndoMove] loads after popping: the new last entry, or
    the starting position. *)
Lemma live_move_then_undo (w : World svc) (mv : MoveRequest)
    (gameCopy moved back : Chess) (result : Move) :
  isPgnMode (react w) = false ->
  chatMode (react w) = false ->
  playingAgainstEngine (react w) = false ->
  newChessFen (fen (game (react w))) = Some gameCopy ->
  move gameCopy (engineRequest gameCopy mv) = Moved moved result ->
  newChessFen
    (if present (last (moveHistory (react w)))
     then default "" (last (moveHistory (react w))) else fen newChess)
  = Some back ->
  let w1 := fst (makeMove svc (react w) mv w) in
  let w2 := fst (handleUndoMove svc (react w1) w1) in
  snd (makeMove svc (react w) mv w) = Returned true
  /\ moveHistory (react w2) = moveHistory (react w)
  /\ currentMoveIndex (react w2) = currentMoveIndex (react w)
  /\ fullMoveHistory (react w1) = history moved
  /\ fullMoveHistory (react w2) = history moved.
Proof.
  intros Hpgn Hchat Hpae Hcopy Hmove Hback w1 w2.
  assert (Hw1 : makeMove svc (react w) mv w
    = (with_react
         (with_fullMoveHistory (history moved)
            (with_currentMoveIndex (num_add (currentMoveIndex (react w)) 1)
               (with_moveHistory (moveHistory (react w) ++ [fen moved])
                  (with_game moved (react w))))) w,
       Returned true)).
  { unfold makeMove. rewrite Hpgn, Hchat, Hpae. unfold_h.
    rewrite Hcopy. simpl. rewrite Hmove. done. }
  unfold w2, w1. rewrite Hw1. simpl.
  unfold handleUndoMove. simpl. rewrite Hpgn, Hpae.
  rewrite length_app, Nat.add_1_r. simpl.
  unfold pop. rewrite removelast_last, Hback. simpl.
  repeat split; try done.
  destruct (currentMoveIndex (react w)) as [z|]; simpl; [|done].
  f_equal. lia.
Qed.

(** ** The guard of [analyzePosition] *)

Lemma analyzePosition_unavailable (w : World svc) (fen0 : string)
    (chess : Chess) :
  narrativeUnavailable (engine w) = true ->
  newChessFen fen0 = Some chess ->
  analyzePosition svc fen0 w = (w, Returned (fallbackAnalysis svc chess)).
Proof.
  intros Hun Hfen. unfold analyzePosition. unfold_h.
  rewrite Hun, Hfen. done.
Qed.

(** ** Session properties *)

(** C5.  In PGN replay mode every move request is refused: [makeMove]
    and [onDrop] return [false] and the whole world (board, move log,
    notation history, cursor, chat transcript, storage) is the one
    before the call; the render that follows changes nothing either. *)
Theorem pgn_mode_rejects_moves (w : World svc) (mv : MoveRequest)
    (sourceSquare targetSquare : string) :
  isPgnMode (react w) = true ->
  makeMove svc (react w) mv w = (w, Returned false)
  /\ onDrop svc (react w) sourceSquare targetSquare w = (w, Returned false)
  /\ dispatch svc w (Drop sourceSquare targetSquare) = w.
Proof.
  intros Hpgn. unfold dispatch, handler, makeMove, onDrop. rewrite Hpgn.
  repeat split. simpl. apply afterRender_same.
Qed.

(** C7.  When the chosen text does not parse as PGN, the session state,
    the storage and the engine object are untouched, the alert
    "Invalid PGN file format" is shown, and the file input is cleared. *)
Theorem import_parse_failure (w : World svc) (pgnText : string) :
  loadPgn pgnText = None ->
  let w' := dispatch svc w (ChooseFile (Some pgnText)) in
  react w' = react w
  /\ localStorage w' = localStorage w
  /\ engine w' = engine w
  /\ requests w' = requests w
  /\ alerts w' = (alerts w ++ ["Invalid PGN file format"])%list
  /\ fileInputValue w' = "".
Proof.
  intros Hload w'.
  assert (Hw' : w' = with_alerts (alerts w ++ ["Invalid PGN file format"])
                       (with_fileInputValue "" w)).
  { unfold w', dispatch, handler, handleImportPGN. unfold_h.
    rewrite Hload. simpl. unfold afterRender. simpl.
    by rewrite bool_decide_eq_true_2. }
  by rewrite Hw'.
Qed.

(** C6.  After an import that completes, for a game of [n] plies: the
    move log has [n] entries, entry [i] being the position reached by
    replaying the first [i+1] parsed moves from the start; the notation
    history is the parsed move list; the cursor is [n-1]; PGN mode is
    on; the PGN text is kept; and storage holds the text and the
    cursor. *)
Theorem import_rebuilds_replay (w : World svc) (pgnText : string)
    (newGame : Chess) (positions : list string) :
  loadPgn pgnText = Some newGame ->
  replayPositions (history newGame) = Some positions ->
  let n := length (history newGame) in
  let w' := dispatch svc w (ChooseFile (Some pgnText)) in
  length (moveHistory (react w')) = n
  /\ (forall i, (i < n)%nat ->
        exists c, replay newChess (take (S i) (history newGame)) = Some c
                  /\ moveHistory (react w') !! i = Some (fen c))
  /\ fullMoveHistory (react w') = history newGame
  /\ currentMoveIndex (react w') = Num (Z.of_nat n - 1)
  /\ isPgnMode (react w') = true
  /\ originalPgn (react w') = pgnText
  /\ localStorage w' !! "chessPgn" = Some pgnText
  /\ localStorage w' !! "chessMoveIndex" = Some (pretty (Z.of_nat n - 1))
  /\ alerts w' = alerts w.
Proof.
  intros Hload Hreplay n w'.
  assert (Hreact : react w'
    = with_isPgnMode true
        (with_currentMoveIndex (Num (Z.of_nat n - 1))
           (with_moveHistory positions
              (with_fullMoveHistory (history newGame)
                 (with_originalPgn pgnText (with_game newGame (react w))))))).
  { unfold w', dispatch, handler. rewrite afterRender_react.
    by rewrite (handleImportPGN_success _ _ _ _ Hload Hreplay). }
  assert (Hstore : localStorage w' !! "chessPgn" = Some pgnText
                   /\ localStorage w' !! "chessMoveIndex"
                      = Some (pretty (Z.of_nat n - 1))
                   /\ alerts w' = alerts w).
  { unfold w', dispatch, handler.
    rewrite (handleImportPGN_success _ _ _ _ Hload Hreplay). simpl.
    unfold afterRender. case_bool_decide; simpl.
    - by simplify_map_eq.
    - unfold persistEffect. simpl.
      destruct (truthy pgnText); simpl; by simplify_map_eq. }
  rewrite Hreact. simpl.
  split; [by apply replayPositions_length|].
  split; [intros i Hi; by apply replayPositions_lookup|].
  by destruct Hstore as (? & ? & ?).
Qed.

(** C10.  In engine mode, taking back with exactly one logged position
    returns normally, empties the log, puts the starting position on
    the board and lowers the cursor by 2, not by 1: from [z] to
    [z - 2]. *)
Theorem undo_single_entry_engine_mode (w : World svc) (p : string) (z : Z) :
  playingAgainstEngine (react w) = true ->
  isPgnMode (react w) = false ->
  moveHistory (react w) = [p] ->
  currentMoveIndex (react w) = Num z ->
  newChessFen (fen newChess) = Some newChess ->
  let r := handleUndoMove svc (react w) w in
  snd r = Returned tt
  /\ moveHistory (react (fst r)) = []
  /\ game (react (fst r)) = newChess
  /\ displayed (react (fst r)) = fen newChess
  /\ currentMoveIndex (react (fst r)) = Num (z - 2)
  /\ currentMoveIndex (react (fst r)) <> Num (z - 1).
Proof.
  intros Hpae Hpgn Hlog Hcursor Hstart r.
  assert (Hr : r = (with_react
                      (with_currentMoveIndex (Num (z - 2))
                         (with_moveHistory []
                            (with_game newChess (react w)))) w,
                    Returned tt)).
  { unfold r, handleUndoMove. rewrite Hpgn, Hlog, Hpae. simpl. unfold_h.
    rewrite Hstart. simpl. rewrite Hcursor. simpl.
    by replace (z + -2) with (z - 2) by lia. }
  rewrite Hr. simpl. repeat split. intros [= Heq]. lia.
Qed.

(** C4 (amended).  When the narrative client is unavailable (never
    initialised, no model, or a key of the wrong shape), [analyzePosition]
    on a position the rules library accepts returns, without throwing
    and without sending any request, the static fallback record: the
    placeholder narrative and neither opening nor evaluation data. *)
Theorem unavailable_narrative_fallback (w : World svc) (fen0 : string)
    (chess : Chess) :
  narrativeUnavailable (engine w) = true ->
  newChessFen fen0 = Some chess ->
  let r := analyzePosition svc fen0 w in
  fst r = w
  /\ snd r = Returned (fallbackAnalysis svc chess)
  /\ requests (fst r) = requests w
  /\ lichessEval (fallbackAnalysis svc chess) = None
  /\ openingInfo (fallbackAnalysis svc chess) = None
  /\ detailedAnalysis (fallbackAnalysis svc chess)
     = "Please provide a valid Gemini API key to enable position analysis.".
Proof.
  intros Hun Hfen r. unfold r.
  by rewrite (analyzePosition_unavailable _ _ _ Hun Hfen).
Qed.

(** C8 (amended).  When the stored PGN is non-empty, loads and replays,
    the restore effect sets the cursor to [parseInt] of the stored
    cursor text as it is, with no clamping, and to -1 when that entry
    is missing or empty. *)
Theorem restore_takes_saved_cursor (storage : gmap string string)
    (pgn : string) (newGame : Chess) (positions : list string) :
  storage !! "chessPgn" = Some pgn ->
  truthy pgn = true ->
  loadPgn pgn = Some newGame ->
  replayPositions (history newGame) = Some positions ->
  currentMoveIndex (react (mount svc storage))
  = match storage !! "chessMoveIndex" with
    | Some text => if truthy text then parseInt text else Num (-1)
    | None => Num (-1)
    end
  /\ moveHistory (react (mount svc storage)) = positions
  /\ isPgnMode (react (mount svc storage)) = true.
Proof.
  intros Hpgn Htruthy Hload Hreplay. unfold mount.
  rewrite afterRender_react, persistEffect_react.
  unfold restoreEffect. unfold_h. simpl. rewrite Hpgn. simpl. rewrite Htruthy.
  rewrite Hload. simpl. rewrite Hreplay. simpl.
  by destruct (storage !! "chessMoveIndex").
Qed.

End Properties.

(** * Concrete runs *)

Section Runs.

Import MiniChess.

(** ** The JavaScript helpers on sample inputs *)

Example parseInt_samples :
  parseInt "7" = Num 7
  /\ parseInt "-1" = Num (-1)
  /\ parseInt "  12px" = Num 12
  /\ parseInt "0x1F" = Num 31
  /\ parseInt "abc" = NaN
  /\ parseInt "" = NaN.
Proof. repeat split; vm_compute; reflexivity. Qed.

Example toString_samples :
  num_toString (Num (-1)) = "-1"
  /\ num_toString (Num 41) = "41"
  /\ num_toString NaN = "NaN".
Proof. repeat split; vm_compute; reflexivity. Qed.

Example validateApiKey_samples :
  validateApiKey goodKey = true
  /\ validateApiKey "" = false
  /\ validateApiKey "   " = false
  /\ validateApiKey "sk-AIza" = false.
Proof. repeat split; vm_compute; reflexivity. Qed.

Example extractFirstMove_sample :
  split_on " " "e7e5 g1f3" = ["e7e5"; "g1f3"]
  /\ extractFirstMove (cloud_eval services (node_fen AfterE4) 1) = Some "e5"
  /\ fst (getBestMove services (node_fen AfterE4) page)
     = with_requests [ReqCloudEval (node_fen AfterE4) 1] page
  /\ snd (getBestMove services (node_fen AfterE4) page) = Returned (Some "e5").
Proof. repeat split; vm_compute; reflexivity. Qed.

Example board_reading_samples :
  get (newChess : Chess) "e2" = Some {| ptype := "p"; pcolor := ColW |}
  /\ get (newChess : Chess) "e8" = Some {| ptype := "k"; pcolor := ColB |}
  /\ get (newChess : Chess) "e4" = None
  /\ get (game endingSession) "a7" = Some {| ptype := "p"; pcolor := ColW |}
  /\ getGamePhase (newChess : Chess) = "Opening"
  /\ getGamePhase (game endingSession) = "Endgame".
Proof. repeat split; vm_compute; reflexivity. Qed.

(** ** Where the code departs from the specification *)

(** C1.  The engine's reply is appended to the move log without moving
    the cursor: after 1. e4 e5 against the engine the log has two
    entries, the cursor is 0 and the board shows the second entry, not
    the one under the cursor.  Taking back then subtracts 2 and leaves
    the cursor at -2 with an empty log, outside [-1, len - 1]. *)
Theorem engine_reply_breaks_cursor_invariant :
  enabled (react engineGame) ClickTakeBack = true
  /\ moveHistory (react engineGame) = [node_fen AfterE4; node_fen AfterE4E5]
  /\ currentMoveIndex (react engineGame) = Num 0
  /\ displayed (react engineGame) = node_fen AfterE4E5
  /\ ~ cursor_shows_board (react engineGame)
  /\ moveHistory (react (step services engineGame ClickTakeBack)) = []
  /\ currentMoveIndex (react (step services engineGame ClickTakeBack))
     = Num (-2)
  /\ ~ cursor_in_range (react (step services engineGame ClickTakeBack)).
Proof.
  repeat split; try (vm_compute; reflexivity).
  - unfold cursor_shows_board. vm_compute. discriminate.
  - intros (z & Hz & Hlo & Hhi).
    assert (Hc : currentMoveIndex
                   (react (step services engineGame ClickTakeBack))
                 = Num (-2)) by (vm_compute; reflexivity).
    assert (Hl : moveHistory (react (step services engineGame ClickTakeBack))
                 = []) by (vm_compute; reflexivity).
    rewrite Hc in Hz. rewrite Hl in Hhi. simpl in Hhi.
    injection Hz as <-. lia.
Qed.

(** C2.  Both controls are enabled on the way, and after switching chat
    mode on and importing a game, [chatMode] and [isPgnMode] are both
    set. *)
Theorem import_in_chat_mode_sets_two_flags :
  enabled (react page) ClickChatMode = true
  /\ enabled (react (step services page ClickChatMode))
       (ChooseFile (Some "1. e4 e5")) = true
  /\ chatMode (react chatThenImport) = true
  /\ isPgnMode (react chatThenImport) = true
  /\ ~ modes_exclusive (react chatThenImport).
Proof.
  repeat split; try (vm_compute; reflexivity).
  unfold modes_exclusive. vm_compute. lia.
Qed.

(** C3.  In live play, 1. e4 followed by a take-back restores the move
    log and the cursor, but the notation history, empty before the
    move, still holds "e4". *)
Theorem undo_leaves_notation_history :
  let w1 := step services page (Drop "e2" "e4") in
  let w2 := step services w1 ClickTakeBack in
  fullMoveHistory (react page) = []
  /\ fullMoveHistory (react w1) = ["e4"]
  /\ moveHistory (react w2) = moveHistory (react page)
  /\ currentMoveIndex (react w2) = currentMoveIndex (react page)
  /\ fullMoveHistory (react w2) = ["e4"]
  /\ fullMoveHistory (react w2) <> fullMoveHistory (react page).
Proof.
  repeat split; try (vm_compute; reflexivity).
  vm_compute. discriminate.
Qed.

(** C4, as stated, fails: on the fresh page the engine has no key, the
    evaluation service would answer for the starting position, and yet
    [analyzePosition] sends no request. *)
Lemma lookups_are_gated :
  is_Some (cloud_eval services (node_fen Start) 3)
  /\ ~ lookups_without_narrative services page (node_fen Start).
Proof.
  split; [vm_compute; by eexists|].
  intros (w' & a & Hrun & Hreq & _).
  rewrite (analyzePosition_unavailable services page (node_fen Start) fresh)
    in Hrun; [|by vm_compute..].
  apply (f_equal fst) in Hrun. simpl in Hrun. subst w'.
  by apply elem_of_nil in Hreq.
Qed.

(** C8, as stated, fails: a stored cursor of 7 with a two-ply game is
    restored as 7, not clamped to 1. *)
Lemma restore_does_not_clamp : ~ restore_clamps services savedReplay.
Proof.
  intros Hclamp. specialize (Hclamp 7).
  assert (Hc : currentMoveIndex (react (mount services savedReplay)) = Num 7)
    by (vm_compute; reflexivity).
  assert (Hl : moveHistory (react (mount services savedReplay))
               = [node_fen AfterE4; node_fen AfterE4E5])
    by (vm_compute; reflexivity).
  rewrite Hc, Hl in Hclamp.
  assert (Hp : parseInt (default "" (savedReplay !! "chessMoveIndex")) = Num 7)
    by (vm_compute; reflexivity).
  specialize (Hclamp Hp). vm_compute in Hclamp. discriminate.
Qed.

(** [makeMove] never reads [move.promotion]: a request that names a
    knight, which [onDrop] never builds, is promoted to a queen as
    well. *)
Lemma underpromotion_gives_queen :
  let r := makeMove services endingSession underpromotion
             (with_react endingSession page) in
  snd r = Returned true
  /\ displayed (react (fst r)) = node_fen QueenA8
  /\ fullMoveHistory (react (fst r)) = ["a8=Q+"].
Proof. repeat split; vm_compute; reflexivity. Qed.

(** With a key of the accepted shape the same call does look up the
    evaluation and the opening before asking for the narrative. *)
Lemma configured_engine_looks_up :
  let keyed := with_engine (fst (setApiKey services goodKey newEngine)) page in
  let r := analyzePosition services (node_fen AfterE4) keyed in
  narrativeUnavailable (engine keyed) = false
  /\ (exists prompt,
        requests (fst r)
        = [ReqCloudEval (node_fen AfterE4) 3;
           ReqOpeningExplorer (node_fen AfterE4) [];
           ReqGenerateContent prompt])
  /\ (exists a, snd r = Returned a
                /\ lichessEval a = Some "Depth: 40"
                /\ openingInfo a = Some "King's Pawn"
                /\ detailedAnalysis a = "A quiet position.").
Proof.
  split; [vm_compute; reflexivity|].
  split; eexists; vm_compute; [reflexivity|]. repeat split.
Qed.

(** ** The general theorems at concrete inputs *)

(** C5 on the page with an imported game. *)
Lemma pgn_mode_rejects_moves_witness :
  isPgnMode (react replayPage) = true
  /\ makeMove services (react replayPage) underpromotion replayPage
     = (replayPage, Returned false)
  /\ onDrop services (react replayPage) "e2" "e4" replayPage
     = (replayPage, Returned false)
  /\ dispatch services replayPage (Drop "e2" "e4") = replayPage.
Proof.
  split; [vm_compute; reflexivity|].
  apply (pgn_mode_rejects_moves services replayPage underpromotion "e2" "e4").
  vm_compute; reflexivity.
Defined.

(** C7 on the fresh page with a text that is not movetext. *)
Lemma import_parse_failure_witness :
  loadPgn "not a pgn" = None
  /\ react (dispatch services page (ChooseFile (Some "not a pgn"))) = react page
  /\ alerts (dispatch services page (ChooseFile (Some "not a pgn")))
     = ["Invalid PGN file format"].
Proof.
  split; [vm_compute; reflexivity|].
  destruct (import_parse_failure services page "not a pgn")
    as (Hreact & _ & _ & _ & Halerts & _); [vm_compute; reflexivity|].
  split; [exact Hreact|exact Halerts].
Defined.

(** C6 for the two-ply game 1. e4 e5. *)
Lemma import_rebuilds_replay_witness :
  loadPgn "1. e4 e5" = Some {| node := AfterE4E5; hist := ["e4"; "e5"] |}
  /\ replayPositions ["e4"; "e5"] = Some [node_fen AfterE4; node_fen AfterE4E5]
  /\ length (moveHistory (react replayPage)) = 2%nat
  /\ currentMoveIndex (react replayPage) = Num 1
  /\ localStorage replayPage !! "chessMoveIndex" = Some "1".
Proof.
  split; [vm_compute; reflexivity|]. split; [vm_compute; reflexivity|].
  destruct (import_rebuilds_replay services page "1. e4 e5"
              {| node := AfterE4E5; hist := ["e4"; "e5"] |}
              [node_fen AfterE4; node_fen AfterE4E5])
    as (Hlen & _ & _ & Hcursor & _ & _ & _ & Hstored & _);
    [vm_compute; reflexivity..|].
  split; [exact Hlen|]. split; [exact Hcursor|exact Hstored].
Defined.

(** C10 after the engine's opening move against a player with black:
    the cursor goes from -1 to -3. *)
Lemma undo_single_entry_engine_mode_witness :
  playingAgainstEngine (react engineOpened) = true
  /\ moveHistory (react engineOpened) = [node_fen AfterE4]
  /\ currentMoveIndex (react engineOpened) = Num (-1)
  /\ snd (handleUndoMove services (react engineOpened) engineOpened)
     = Returned tt
  /\ moveHistory
       (react (fst (handleUndoMove services (react engineOpened) engineOpened)))
     = []
  /\ currentMoveIndex
       (react (fst (handleUndoMove services (react engineOpened) engineOpened)))
     = Num (-3).
Proof.
  split; [vm_compute; reflexivity|]. split; [vm_compute; reflexivity|].
  split; [vm_compute; reflexivity|].
  destruct (undo_single_entry_engine_mode services engineOpened
              (node_fen AfterE4) (-1))
    as (Hret & Hlog & _ & _ & Hcursor & _); [vm_compute; reflexivity..|].
  split; [exact Hret|]. split; [exact Hlog|exact Hcursor].
Defined.

(** C4 (amended) on the fresh page, whose engine has no key. *)
Lemma unavailable_narrative_fallback_witness :
  narrativeUnavailable (engine page) = true
  /\ newChessFen (node_fen Start) = Some fresh
  /\ snd (analyzePosition services (node_fen Start) page)
     = Returned (fallbackAnalysis services fresh)
  /\ requests (fst (analyzePosition services (node_fen Start) page)) = [].
Proof.
  split; [vm_compute; reflexivity|]. split; [vm_compute; reflexivity|].
  destruct (unavailable_narrative_fallback services page (node_fen Start) fresh)
    as (_ & Hret & Hreq & _); [vm_compute; reflexivity..|].
  split; [exact Hret|exact Hreq].
Defined.

(** C8 (amended) for storage holding a two-ply game and the cursor text 7. *)
Lemma restore_takes_saved_cursor_witness :
  savedReplay !! "chessPgn" = Some "1. e4 e5"
  /\ currentMoveIndex (react (mount services savedReplay))
     = match savedReplay !! "chessMoveIndex" with
       | Some text => if truthy text then parseInt text else Num (-1)
       | None => Num (-1)
       end.
Proof.
  split; [vm_compute; reflexivity|].
  destruct (restore_takes_saved_cursor services savedReplay "1. e4 e5"
              {| node := AfterE4E5; hist := ["e4"; "e5"] |}
              [node_fen AfterE4; node_fen AfterE4E5])
    as (Hcursor & _); [vm_compute; reflexivity..|].
  exact Hcursor.
Defined.

End Runs.

(** * Further properties of the handlers and of the engine object *)
Ltac run_h :=
  unfold orThrow, throw, try_catch, setState, setItem, removeItem, getItem,
    alert, send, modify;
  unfold mbind, mret, H_bind, H_ret.

Section EngineProperties.
Context `{E : RulesEngine} (svc : Services).

(** No white space starts with the letter A. *)
Lemma skip_space_A (s : string) : skip_space (String "A" s) = String "A" s.
Proof.
  assert (Hout : forall t, String "A" t ∉ white_space).
  { intros t Ht. unfold white_space in Ht. cbn in Ht.
    repeat (apply elem_of_cons in Ht as [Ht|Ht]; [discriminate|]).
    by apply elem_of_nil in Ht. }
  cbn. destruct s as [|c2 [|c3 s]]; [done|..];
    unfold is_space2, is_space3;
    rewrite ?(bool_decide_eq_false_2 _ (Hout _)); done.
Qed.

Lemma trim_nonempty_A (s : string) : trim_nonempty (String "A" s) = true.
Proof.
  unfold trim_nonempty, trim. rewrite skip_space_A.
  cbn [trimEnd]. by rewrite skip_space_A.
Qed.

Lemma validateApiKey_startsWith (key : string) :
  validateApiKey key = startsWith key "AIza".
Proof.
  unfold validateApiKey, startsWith.
  destruct (String.prefix "AIza" key) eqn:Hp; [|apply andb_false_r].
  rewrite andb_true_r. destruct key as [|c key]; [done|].
  change (String.prefix "AIza" (String c key))
    with (match Ascii.ascii_dec "A" c with
          | left _ => String.prefix "Iza" key
          | right _ => false
          end) in Hp.
  destruct (Ascii.ascii_dec "A" c) as [<-|]; [|discriminate].
  apply trim_nonempty_A.
Qed.

(** X1.  validateApiKey accepts a key exactly when it starts with
    [AIza]; the trim-length test never decides the outcome, since an
    accepted key is never blank. *)
Theorem validateApiKey_is_prefix_test (key : string) :
  validateApiKey key = startsWith key "AIza"
  /\ (validateApiKey key = true -> trim_nonempty key = true).
Proof.
  split; [apply validateApiKey_startsWith|].
  unfold validateApiKey. by intros [? _]%andb_true_iff.
Qed.

(** X2.  setApiKey returns true exactly for keys starting with [AIza].
    A rejected key leaves the engine object unchanged; an accepted key
    is stored, and the narrative client is then available exactly when
    the SDK constructor did not throw. *)
Theorem setApiKey_outcome (key : string) (eng : EngineState) :
  snd (setApiKey svc key eng) = startsWith key "AIza"
  /\ (startsWith key "AIza" = false -> fst (setApiKey svc key eng) = eng)
  /\ (startsWith key "AIza" = true ->
      apiKey (fst (setApiKey svc key eng)) = key
      /\ narrativeUnavailable (fst (setApiKey svc key eng))
         = negb (bool_decide (is_Some (sdk_model svc key)))).
Proof.
  rewrite <- validateApiKey_startsWith. unfold setApiKey.
  destruct (validateApiKey key) eqn:Hv; simpl; repeat split; try done.
  - unfold initializeAI. simpl. rewrite Hv. simpl. by destruct (sdk_model svc key).
  - unfold initializeAI, narrativeUnavailable. simpl. rewrite Hv. simpl.
    destruct (sdk_model svc key); simpl; [by rewrite Hv|done].
Qed.

(** X3.  After any sequence of setApiKey calls on a new ChessEngine,
    the stored key is empty or starts with [AIza], isInitialized holds
    exactly when a model handle is present, and the guard of
    analyzePosition is equivalent to !isInitialized. *)
Theorem configured_engine_invariant (keys : list string) :
  let eng := configure svc keys in
  (apiKey eng = "" \/ startsWith (apiKey eng) "AIza" = true)
  /\ (isInitialized eng = true <-> is_Some (model eng))
  /\ narrativeUnavailable eng = negb (isInitialized eng).
Proof.
  unfold configure. induction keys as [|key keys IH] using rev_ind.
  - simpl. split; [by left|]. split; [|done].
    split; [done|]. intros [m Hm]. discriminate.
  - rewrite foldl_app. simpl.
    set (eng := foldl _ newEngine keys) in *. simpl in IH.
    destruct IH as (Hkey & Hinit & Hguard).
    unfold setApiKey. destruct (validateApiKey key) eqn:Hv; simpl; [|done].
    unfold initializeAI. simpl. rewrite Hv. simpl.
    rewrite validateApiKey_startsWith in Hv.
    destruct (sdk_model svc key) as [m|] eqn:Hsdk; simpl.
    + unfold narrativeUnavailable. simpl.
      rewrite validateApiKey_startsWith, Hv.
      split; [by right|]. split; [|done]. split; [by eexists|done].
    + split; [by right|]. split; [|done].
      split; [done|]. intros [m Hm]. discriminate.
Qed.

(** X4.  findBestMoves returns at most five moves, each a non-empty
    SAN string from the library's legal-move list, and returns the
    empty list when the game is over. *)
Theorem findBestMoves_bounds (chess : Chess) :
  (length (findBestMoves chess) <= 5)%nat
  /\ Forall (λ s, truthy s = true /\ s ∈ moves chess) (findBestMoves chess)
  /\ (isGameOver chess = true -> findBestMoves chess = []).
Proof.
  unfold findBestMoves. destruct (isGameOver chess); simpl.
  - repeat split; [lia|constructor].
  - split; [rewrite length_take; lia|]. split; [|done].
    apply Forall_take, Forall_forall. intros s Hs.
    apply list_elem_of_In, filter_In in Hs as [Hin Ht].
    split; [done|by apply list_elem_of_In].
Qed.

Lemma convertMovesToUCI_from_length (chess : Chess) (sans uci : list string) :
  convertMovesToUCI_from chess sans = Some uci -> length uci = length sans.
Proof.
  revert chess uci. induction sans as [|mv rest IH]; intros chess uci; simpl.
  - by intros [= <-].
  - destruct (move chess (MoveSan mv)) as [c r| |]; [| |done].
    + intros (tl & Htl & ->)%fmap_Some. simpl. f_equal. by eapply IH.
    + intros (tl & Htl & ->)%fmap_Some. simpl. f_equal. by eapply IH.
Qed.

(** X5.  When convertMovesToUCI returns, its result has no empty
    string and is at most as long as the input move list (rejected
    moves are dropped). *)
Theorem convertMovesToUCI_shape (sans uci : list string) :
  convertMovesToUCI sans = Some uci ->
  (length uci <= length sans)%nat /\ Forall (λ s, truthy s = true) uci.
Proof.
  unfold convertMovesToUCI. intros (raw & Hraw & ->)%fmap_Some. split.
  - rewrite <- (convertMovesToUCI_from_length _ _ _ Hraw).
    pose proof (List.filter_length truthy raw). lia.
  - apply Forall_forall. intros s Hs. by apply list_elem_of_In, filter_In in Hs as [_ Ht].
Qed.


Lemma analyzePosition_returns (w : World svc) (fen0 : string) (chess : Chess) :
  newChessFen fen0 = Some chess ->
  exists w' a,
    analyzePosition svc fen0 w = (w', Returned a)
    /\ with_requests (requests w) w' = w
    /\ (exists sent, requests w' = (requests w ++ sent)%list
                     /\ (length sent <= 3)%nat)
    /\ (a = fallbackAnalysis svc chess
        \/ (lichessEval a = Some (formatEvaluation svc (cloud_eval svc fen0 3))
            /\ is_Some (openingInfo a)
            /\ pv a = findBestMoves chess)).
Proof.
  intros Hfen. unfold analyzePosition, getPositionEvaluation, getOpeningInfo.
  run_h. rewrite Hfen.
  destruct (narrativeUnavailable (engine w)); simpl.
  { exists w, (fallbackAnalysis svc chess). split; [reflexivity|]. split; [by destruct w|].
    split; [exists []; split; [by rewrite app_nil_r|simpl; lia]|by left]. }
  destruct (convertMovesToUCI (history chess)) as [uci|]; simpl.
  2:{ do 2 eexists. split; [reflexivity|]. split; [by destruct w|].
      split; [exists [ReqCloudEval fen0 3]; split; [done|simpl; lia]|by left]. }
  match goal with |- context [generate svc ?p] => set (prompt := p) end.
  destruct (generate svc prompt) as [md|]; simpl.
  2:{ do 2 eexists. split; [reflexivity|]. split; [by destruct w|].
      split; [|by left]. eexists. split; [by rewrite <- !app_assoc|simpl; lia]. }
  destruct (truthy md); simpl.
  - do 2 eexists. split; [reflexivity|]. split; [by destruct w|].
    split; [eexists; split; [by rewrite <- !app_assoc|simpl; lia]|].
    right. simpl. by eauto.
  - do 2 eexists. split; [reflexivity|]. split; [by destruct w|].
    split; [|by left]. eexists. split; [by rewrite <- !app_assoc|simpl; lia].
Qed.

(** X6.  For a FEN the rules library accepts, analyzePosition never
    throws: it returns a record, changes nothing but the request log
    (at most three requests added), and the record is either the
    static fallback or carries the formatted evaluation text, an
    opening text and the findBestMoves list. *)
Theorem analyzePosition_total (w : World svc) (fen0 : string) (chess : Chess) :
  newChessFen fen0 = Some chess ->
  exists w' a,
    analyzePosition svc fen0 w = (w', Returned a)
    /\ with_requests (requests w) w' = w
    /\ (exists sent, requests w' = (requests w ++ sent)%list
                     /\ (length sent <= 3)%nat)
    /\ (a = fallbackAnalysis svc chess
        \/ (lichessEval a = Some (formatEvaluation svc (cloud_eval svc fen0 3))
            /\ is_Some (openingInfo a)
            /\ pv a = findBestMoves chess)).
Proof. apply analyzePosition_returns. Qed.

Lemma analyzePosition_bad_fen (w : World svc) (fen0 : string) :
  newChessFen fen0 = None -> analyzePosition svc fen0 w = (w, Threw).
Proof.
  intros Hfen. unfold analyzePosition. run_h. rewrite Hfen.
  by destruct (narrativeUnavailable (engine w)).
Qed.

(** X7.  With a configured engine, when the text generation rejects or
    returns empty text, analyzePosition has already sent the
    evaluation, opening and generation requests, yet returns the
    static fallback record: the opening and evaluation data obtained
    are discarded. *)
Theorem narrative_failure_discards_lookups (w : World svc) (fen0 : string)
    (chess : Chess) (uci : list string) :
  narrativeUnavailable (engine w) = false ->
  newChessFen fen0 = Some chess ->
  convertMovesToUCI (history chess) = Some uci ->
  let prompt :=
    analysisPrompt fen0 (getGamePhase chess) (history chess)
      (cloud_eval svc fen0 3) (formatEvaluation svc (cloud_eval svc fen0 3))
      (explorer svc (fen chess) uci) in
  present (generate svc prompt) = false ->
  analyzePosition svc fen0 w
  = (with_requests
       (requests w ++ [ReqCloudEval fen0 3;
                       ReqOpeningExplorer (fen chess) uci;
                       ReqGenerateContent prompt]) w,
     Returned (fallbackAnalysis svc chess)).
Proof.
  intros Hav Hfen Huci prompt Hgen.
  unfold analyzePosition, getPositionEvaluation, getOpeningInfo.
  run_h. rewrite Hfen, Hav. simpl. rewrite Huci. simpl.
  fold prompt. unfold present in Hgen.
  destruct (generate svc prompt) as [md|]; simpl.
  - rewrite Hgen. simpl. by rewrite <- !app_assoc.
  - by rewrite <- !app_assoc.
Qed.

(** X8.  When the board built from the FEN has an empty move history
    (as a board built from a FEN has), a configured analyzePosition
    sends exactly three requests, the opening explorer is asked with
    an empty move list, the prompt is built from an empty history, and
    the phase is never 'Middlegame'. *)
Theorem analysis_of_fen_board (w : World svc) (fen0 : string) (chess : Chess) :
  narrativeUnavailable (engine w) = false ->
  newChessFen fen0 = Some chess ->
  history chess = [] ->
  getGamePhase chess <> "Middlegame"
  /\ requests (fst (analyzePosition svc fen0 w))
     = (requests w
        ++ [ReqCloudEval fen0 3;
            ReqOpeningExplorer (fen chess) [];
            ReqGenerateContent
              (analysisPrompt fen0 (getGamePhase chess) []
                 (cloud_eval svc fen0 3)
                 (formatEvaluation svc (cloud_eval svc fen0 3))
                 (explorer svc (fen chess) []))])%list.
Proof.
  intros Hav Hfen Hhist. split.
  - unfold getGamePhase. rewrite Hhist. simpl. by case_match.
  - unfold analyzePosition, getPositionEvaluation, getOpeningInfo.
    run_h. rewrite Hfen, Hav. simpl. rewrite Hhist. simpl.
    match goal with |- context [generate svc ?p] => set (prompt := p) end.
    destruct (generate svc prompt) as [md|]; simpl;
      [destruct (truthy md); simpl|]; by rewrite <- !app_assoc.
Qed.

(** X9.  getBestMove never throws and changes nothing but the request
    log, to which it adds at most one cloud-eval request. Any move it
    returns is the SAN of a move the rules library accepted on the
    given position, which is not game over; on a game-over position it
    returns null without sending a request. *)
Theorem getBestMove_checked (w : World svc) (fen0 : string) :
  exists w' r,
    getBestMove svc fen0 w = (w', Returned r)
    /\ (w' = w \/ w' = with_requests (requests w ++ [ReqCloudEval fen0 1]) w)
    /\ (forall s, r = Some s ->
          exists chess c best m,
            newChessFen fen0 = Some chess
            /\ isGameOver chess = false
            /\ move chess (MoveSan best) = Moved c m
            /\ s = san m)
    /\ (forall chess, newChessFen fen0 = Some chess ->
          isGameOver chess = true -> w' = w /\ r = None).
Proof.
  unfold getBestMove, getPositionEvaluation. run_h.
  destruct (newChessFen fen0) as [chess|] eqn:Hfen; cbn -[extractFirstMove].
  2:{ do 2 eexists. split; [reflexivity|]. split; [by left|]. split; [done|done]. }
  destruct (isGameOver chess) eqn:Hover; cbn -[extractFirstMove].
  { do 2 eexists. split; [reflexivity|]. split; [by left|].
    split; [done|]. intros c [= <-] _. done. }
  assert (Hnot : forall c : Chess, Some chess = Some c -> isGameOver c = true ->
                 False).
  { intros c [= <-]. congruence. }
  destruct (cloud_eval svc fen0 1) as [ev|] eqn:Hev; cbn -[extractFirstMove].
  2:{ do 2 eexists. split; [reflexivity|]. split; [by right|].
      split; [done|]. intros c Hc Ho. by destruct (Hnot c Hc Ho). }
  destruct (extractFirstMove (Some ev)) as [best|]; cbn -[extractFirstMove].
  2:{ do 2 eexists. split; [reflexivity|]. split; [by right|].
      split; [done|]. intros c Hc Ho. by destruct (Hnot c Hc Ho). }
  destruct (truthy best); cbn -[extractFirstMove].
  2:{ do 2 eexists. split; [reflexivity|]. split; [by right|].
      split; [done|]. intros c Hc Ho. by destruct (Hnot c Hc Ho). }
  destruct (move chess (MoveSan best)) as [c m| |] eqn:Hmove; cbn -[extractFirstMove].
  - do 2 eexists. split; [reflexivity|]. split; [by right|]. split.
    + intros s [= <-]. by exists chess, c, best, m.
    + intros c' Hc Ho. by destruct (Hnot c' Hc Ho).
  - do 2 eexists. split; [reflexivity|]. split; [by right|].
    split; [done|]. intros c Hc Ho. by destruct (Hnot c Hc Ho).
  - do 2 eexists. split; [reflexivity|]. split; [by right|].
    split; [done|]. intros c Hc Ho. by destruct (Hnot c Hc Ho).
Qed.

End EngineProperties.

Section SessionProperties.
Context `{E : RulesEngine} (svc : Services).

Section Keeps.
Context {B : Type} (f : World svc -> B).

Lemma keeps_ret {A : Type} (a : A) : keeps f (mret a).
Proof. done. Qed.

Lemma keeps_throw {A : Type} : keeps f (throw svc (A := A)).
Proof. done. Qed.

Lemma keeps_bind {A C : Type} (m : H svc A) (k : A -> H svc C) :
  keeps f m -> (forall a, keeps f (k a)) -> keeps f (m ≫= k).
Proof.
  intros Hm Hk w. unfold mbind, H_bind. specialize (Hm w).
  destruct (m w) as [w1 [a|]]; simpl in *; [|done].
  by rewrite Hk.
Qed.

Lemma keeps_try_catch {A : Type} (body handler : H svc A) :
  keeps f body -> keeps f handler -> keeps f (try_catch svc body handler).
Proof.
  intros Hb Hh w. unfold try_catch. specialize (Hb w).
  destruct (body w) as [w1 [a|]]; simpl in *; [done|].
  by rewrite Hh.
Qed.

Lemma keeps_orThrow {A : Type} (o : option A) : keeps f (orThrow svc o).
Proof. by destruct o. Qed.

Lemma keeps_modify (g : World svc -> World svc) :
  (forall w, f (g w) = f w) -> keeps f (modify svc g).
Proof. intros Hg w. apply Hg. Qed.

Lemma keeps_getItem (key : string) : keeps f (getItem svc key).
Proof. done. Qed.

(** A computation that first reads the world. *)
Lemma keeps_read {A : Type} (k : World svc -> H svc A) :
  (forall w0, keeps f (k w0)) -> keeps f (λ w, k w w).
Proof. intros Hk w. apply Hk. Qed.

End Keeps.

Ltac keeps_side := intros; first [reflexivity | solve [auto]].

Ltac keeps_step :=
  lazymatch goal with
  | |- keeps _ (mbind _ _) => apply keeps_bind; [|intros ?]
  | |- keeps _ (mret _) => apply keeps_ret
  | |- keeps _ (throw _) => apply keeps_throw
  | |- keeps _ (orThrow _ _) => apply keeps_orThrow
  | |- keeps _ (try_catch _ _ _) => apply keeps_try_catch
  | |- keeps _ (getItem _ _) => apply keeps_getItem
  | |- keeps _ (send _ _) =>
      unfold send; apply keeps_modify; keeps_side
  | |- keeps _ (setItem _ _ _) =>
      unfold setItem; apply keeps_modify; keeps_side
  | |- keeps _ (removeItem _ _) =>
      unfold removeItem; apply keeps_modify; keeps_side
  | |- keeps _ (alert _ _) =>
      unfold alert; apply keeps_modify; keeps_side
  | |- keeps _ (setState _ _) =>
      unfold setState; apply keeps_modify; keeps_side
  | |- keeps _ (modify _ _) => apply keeps_modify; keeps_side
  | |- keeps _ (getPositionEvaluation _ _ _) => unfold getPositionEvaluation
  | |- keeps _ (getOpeningInfo _ _ _) => unfold getOpeningInfo
  | |- keeps _ (if _ then _ else _) => case_match
  | |- keeps _ (match _ with _ => _ end) => case_match
  | |- keeps _ (let _ := _ in _) => cbv zeta
  | |- keeps _ (λ w, _ w) => apply keeps_read; intros ?
  end.


(** The two engine calls only add to the request log. *)
Lemma keeps_getBestMove {B : Type} (f : World svc -> B) (fen0 : string) :
  (forall r w, f (with_requests r w) = f w) ->
  keeps f (getBestMove svc fen0).
Proof.
  intros Hf. unfold getBestMove.
  repeat keeps_step.
Qed.

Lemma keeps_analyzePosition {B : Type} (f : World svc -> B) (fen0 : string) :
  (forall r w, f (with_requests r w) = f w) ->
  keeps f (analyzePosition svc fen0).
Proof.
  intros Hf. unfold analyzePosition.
  repeat keeps_step.
Qed.

(** ** Refused requests *)

Lemma keeps_makeEngineMove {B : Type} (f : World svc -> B) (g : Chess) :
  (forall r w, f (with_requests r w) = f w) ->
  (forall s w, f (with_react (with_engineThinking s (react w)) w) = f w) ->
  (forall s w, f (with_react (with_game s (react w)) w) = f w) ->
  (forall s w, f (with_react (with_moveHistory s (react w)) w) = f w) ->
  keeps f (makeEngineMove svc g).
Proof.
  intros Hreq Hthink Hgame Hlog. unfold makeEngineMove.
  repeat first [apply keeps_getBestMove; exact Hreq | keeps_step].
Qed.

Lemma makeMove_refused_eq (snap : Session svc) (w : World svc)
    (mv : MoveRequest) :
  (forall gameCopy c m,
     newChessFen (fen (game snap)) = Some gameCopy ->
     move gameCopy (engineRequest gameCopy mv) <> Moved c m) ->
  makeMove svc snap mv w = (w, Returned false).
Proof.
  intros Hrej. unfold makeMove. destruct (isPgnMode snap); [done|].
  run_h. destruct (newChessFen (fen (game snap))) as [gameCopy|] eqn:Hcopy;
    simpl; [|done].
  destruct (move gameCopy (engineRequest gameCopy mv)) as [c m| |] eqn:Hmove;
    [|done..].
  by destruct (Hrej gameCopy c m).
Qed.

(** X10.  When the rules library does not accept the move (it throws
    or returns null, or the board copy cannot be built), makeMove
    returns false and the world is unchanged; the same drop on the
    board, with its render, changes nothing. *)
Theorem makeMove_refused (w : World svc) (mv : MoveRequest) :
  (forall gameCopy c m,
     newChessFen (fen (game (react w))) = Some gameCopy ->
     move gameCopy (engineRequest gameCopy mv) <> Moved c m) ->
  makeMove svc (react w) mv w = (w, Returned false)
  /\ dispatch svc w (Drop (mv_from mv) (mv_to mv)) = w.
Proof.
  intros Hrej. split; [by apply makeMove_refused_eq|].
  unfold dispatch, handler, onDrop.
  assert (Hdrop : makeMove svc (react w)
                    {| mv_from := mv_from mv; mv_to := mv_to mv;
                       mv_promotion := None |} w = (w, Returned false))
    by by apply makeMove_refused_eq.
  destruct (isPgnMode (react w)); [apply afterRender_same|].
  destruct (playingAgainstEngine (react w) && _); [apply afterRender_same|].
  unfold mbind, H_bind. rewrite Hdrop. apply afterRender_same.
Qed.

(** X11.  When playing against the engine and it is the engine's side
    to move, onDrop returns false and leaves the world unchanged. *)
Theorem onDrop_out_of_turn (snap : Session svc) (w : World svc)
    (sourceSquare targetSquare : string) :
  playingAgainstEngine snap = true ->
  (turn (game snap) = ColW /\ playerColor snap = SideBlack)
  \/ (turn (game snap) = ColB /\ playerColor snap = SideWhite) ->
  onDrop svc snap sourceSquare targetSquare w = (w, Returned false).
Proof.
  intros Hpae Hturn. unfold onDrop. destruct (isPgnMode snap); [done|].
  rewrite Hpae. destruct Hturn as [[-> ->]|[-> ->]]; done.
Qed.

(** X12.  With an empty move log, or in PGN mode, handleUndoMove does
    nothing and raises no error; the Take Back event leaves the whole
    world unchanged. *)
Theorem handleUndoMove_nothing_to_undo (w : World svc) :
  moveHistory (react w) = [] \/ isPgnMode (react w) = true ->
  handleUndoMove svc (react w) w = (w, Returned tt)
  /\ dispatch svc w ClickTakeBack = w.
Proof.
  intros Hnothing.
  assert (Hundo : handleUndoMove svc (react w) w = (w, Returned tt)).
  { destruct Hnothing as [Hlog|Hpgn]; unfold handleUndoMove.
    - rewrite Hlog. by destruct (isPgnMode (react w)).
    - by rewrite Hpgn. }
  split; [done|]. unfold dispatch, handler. rewrite Hundo.
  apply afterRender_same.
Qed.

(** ** New game *)

Lemma handleNewGame_eq (w : World svc) :
  handleNewGame svc w
  = (with_localStorage
       (delete "chessMoveIndex" (delete "chessPgn" (localStorage w)))
       (with_react
          (with_showColorModal (showColorModal (react w))
             (with_engineThinking (engineThinking (react w))
                (initialSession svc))) w),
     Returned tt).
Proof. by destruct w as [[] ? ? ? ? ?]. Qed.

(** X13.  handleNewGame puts the session back to its initial values
    except engineThinking and showColorModal, which it does not touch,
    and removes both storage entries; afterwards the modes are
    exclusive, the cursor is in range and agrees with the board, and a
    second handleNewGame changes nothing. *)
Theorem handleNewGame_resets (w : World svc) :
  let w' := fst (handleNewGame svc w) in
  react w'
  = with_showColorModal (showColorModal (react w))
      (with_engineThinking (engineThinking (react w)) (initialSession svc))
  /\ localStorage w' !! "chessPgn" = None
  /\ localStorage w' !! "chessMoveIndex" = None
  /\ modes_exclusive (react w')
  /\ cursor_in_range (react w')
  /\ cursor_shows_board (react w')
  /\ fst (handleNewGame svc w') = w'.
Proof.
  intros w'. unfold w'. rewrite !handleNewGame_eq. simpl.
  split; [done|]. split; [by simplify_map_eq|]. split; [by simplify_map_eq|].
  split; [unfold modes_exclusive; simpl; lia|].
  split; [exists (-1); simpl; split; [done|lia]|]. split; [done|].
  unfold with_localStorage, with_react. simpl. f_equal.
  apply map_eq. intros k.
  destruct (decide (k = "chessMoveIndex"));
    destruct (decide (k = "chessPgn")); by simplify_map_eq.
Qed.

(** X14.  handleStopPgnAnalysis has exactly the effect of
    handleNewGame on every world: its own four resets are repeated by
    the handleNewGame it calls. *)
Theorem handleStopPgnAnalysis_is_handleNewGame (w : World svc) :
  handleStopPgnAnalysis svc w = handleNewGame svc w
  /\ dispatch svc w ClickStopPgn = dispatch svc w ClickNewGame.
Proof.
  assert (Heq : handleStopPgnAnalysis svc w = handleNewGame svc w).
  { unfold handleStopPgnAnalysis. unfold mbind at 1 2 3 4. unfold H_bind.
    cbn [setState removeItem modify]. rewrite !handleNewGame_eq. simpl.
    f_equal. unfold with_localStorage, with_react. simpl. f_equal.
    apply map_eq. intros k.
    destruct (decide (k = "chessMoveIndex"));
      destruct (decide (k = "chessPgn")); by simplify_map_eq. }
  split; [done|]. unfold dispatch, handler. by rewrite Heq.
Qed.

(** ** Navigation *)

(** X15.  navigateMove with an index below -1, at or beyond the log
    length, or NaN does nothing; so Previous at the start and Next at
    the end (and both under a NaN cursor) leave the world unchanged. *)
Theorem navigateMove_out_of_range (w : World svc) (index : number) :
  num_in_range (-1) index (Z.of_nat (length (moveHistory (react w)))) = false ->
  navigateMove svc (react w) index w = (w, Returned tt)
  /\ (index = num_add (currentMoveIndex (react w)) (-1) ->
      dispatch svc w ClickPrev = w)
  /\ (index = num_add (currentMoveIndex (react w)) 1 ->
      dispatch svc w ClickNext = w).
Proof.
  intros Hout.
  assert (Hnav : navigateMove svc (react w) index w = (w, Returned tt))
    by (unfold navigateMove; by rewrite Hout).
  split; [done|].
  split; intros ->; unfold dispatch, handler, handlePrevMove, handleNextMove;
    rewrite Hnav; apply afterRender_same.
Qed.

Lemma navigateMove_cursor (snap : Session svc) (w : World svc)
    (index : number) :
  currentMoveIndex (react (fst (navigateMove svc snap index w)))
  = if num_in_range (-1) index (Z.of_nat (length (moveHistory snap)))
    then index else currentMoveIndex (react w).
Proof.
  unfold navigateMove.
  destruct (num_in_range _ _ _); [|done]. run_h. simpl.
  case_bool_decide; simpl.
  - by destruct (isPgnMode snap).
  - repeat (case_match; simplify_eq/=; try done).
Qed.

Lemma navigateMove_range (w : World svc) (index : number) :
  cursor_in_range (react w) ->
  cursor_in_range (react (fst (navigateMove svc (react w) index w)))
  /\ moveHistory (react (fst (navigateMove svc (react w) index w)))
     = moveHistory (react w).
Proof.
  intros Hin.
  assert (Hlog : moveHistory (react (fst (navigateMove svc (react w) index w)))
                 = moveHistory (react w)).
  { assert (Hk : keeps (λ w, moveHistory (react w))
                   (navigateMove svc (react w) index))
      by (unfold navigateMove; repeat keeps_step).
    apply Hk. }
  split; [|done]. unfold cursor_in_range. rewrite Hlog, navigateMove_cursor.
  destruct (num_in_range _ _ _) eqn:Hr; [|done].
  destruct index as [z|]; [|done]. simpl in Hr.
  exists z. split; [done|]. lia.
Qed.

(** X16.  If the cursor is within [-1, len-1], it still is after
    Previous, Next, Start or a click on a move button, and the move
    log is unchanged, even when loading the position throws. *)
Theorem navigation_stays_in_range (w : World svc) (e : Event) :
  e = ClickPrev \/ e = ClickNext \/ e = ClickStart
  \/ (exists i, e = ClickMove i) ->
  cursor_in_range (react w) ->
  cursor_in_range (react (dispatch svc w e))
  /\ moveHistory (react (dispatch svc w e)) = moveHistory (react w).
Proof.
  intros He Hin. unfold dispatch. rewrite !afterRender_react.
  destruct He as [->|[->|[->|[i ->]]]]; by apply navigateMove_range.
Qed.

(** ** Mounting *)

(** X19.  When storage holds no PGN entry (or an empty one), mounting
    changes nothing: the session is the initial one and storage is
    left as it was, even if a cursor entry is present. *)
Theorem mount_without_saved_game (storage : gmap string string) :
  present (storage !! "chessPgn") = false ->
  mount svc storage = freshWorld svc storage.
Proof.
  intros Hnone. unfold mount, restoreEffect. run_h. simpl.
  rewrite Hnone. simpl. apply (afterRender_same svc (freshWorld svc storage)).
Qed.

(** X20.  When the stored PGN does not load, mounting removes both
    storage entries and leaves the session in its initial Live state. *)
Theorem mount_discards_unreadable_game (storage : gmap string string)
    (pgn : string) :
  storage !! "chessPgn" = Some pgn ->
  truthy pgn = true ->
  loadPgn pgn = None ->
  mount svc storage
  = freshWorld svc (delete "chessMoveIndex" (delete "chessPgn" storage)).
Proof.
  intros Hpgn Htruthy Hload. unfold mount, restoreEffect. run_h. simpl.
  rewrite Hpgn. simpl. rewrite Htruthy, Hload. simpl.
  apply (afterRender_same svc
           (freshWorld svc (delete "chessMoveIndex" (delete "chessPgn" storage)))).
Qed.

(** ** The engine's turn *)

Lemma makeEngineMove_game_over (g : Chess) (w : World svc) :
  isGameOver g = true -> makeEngineMove svc g w = (w, Returned tt).
Proof. intros Hover. unfold makeEngineMove. by rewrite Hover. Qed.

(** X21.  When the cloud has no evaluation for the position,
    makeEngineMove sends one request, leaves the board and the move
    log as they were, and ends with engineThinking false: a silent
    stall. *)
Theorem makeEngineMove_without_suggestion (g c : Chess) (w : World svc) :
  isGameOver g = false ->
  newChessFen (fen g) = Some c ->
  isGameOver c = false ->
  cloud_eval svc (fen g) 1 = None ->
  makeEngineMove svc g w
  = (with_requests (requests w ++ [ReqCloudEval (fen g) 1])
       (with_react (with_engineThinking false (react w)) w),
     Returned tt).
Proof.
  intros Hover Hcopy Hcopy_over Hnone. unfold makeEngineMove, getBestMove.
  rewrite Hover. unfold getPositionEvaluation. run_h. simpl.
  rewrite Hcopy. simpl. rewrite Hcopy_over. simpl. rewrite Hnone. simpl.
  by destruct w as [[] ? ? ? ? ?].
Qed.

(** ** What a successful move records *)

Lemma makeMove_accepted (snap : Session svc) (w : World svc)
    (mv : MoveRequest) (gameCopy moved : Chess) (result : Move) :
  isPgnMode snap = false ->
  newChessFen (fen (game snap)) = Some gameCopy ->
  move gameCopy (engineRequest gameCopy mv) = Moved moved result ->
  makeMove svc snap mv w
  = try_catch svc
      (_ ← afterAcceptedMove svc snap moved result; mret true)
      (mret false)
      (with_react (recordMove moved (react w)) w).
Proof.
  intros Hpgn Hcopy Hmove. unfold makeMove. rewrite Hpgn.
  unfold try_catch. unfold mbind at 1. unfold H_bind at 1.
  unfold orThrow at 1. rewrite Hcopy. cbn [mret H_ret]. rewrite Hmove.
  reflexivity.
Qed.

(** The engine's reply only appends to the log. *)
Lemma makeEngineMove_appends (g : Chess) (w : World svc) :
  exists tail,
    moveHistory (react (fst (makeEngineMove svc g w)))
    = (moveHistory (react w) ++ tail)%list.
Proof.
  assert (Hnone : forall l : list string, exists tail, l = (l ++ tail)%list)
    by (intros l; exists []; by rewrite app_nil_r).
  unfold makeEngineMove. destruct (isGameOver g); simpl; [done|].
  unfold mbind at 1, H_bind at 1. cbn [setState modify fst snd].
  set (w1 := with_react _ w).
  unfold mbind at 1, H_bind at 1.
  pose proof (keeps_getBestMove (λ w, react w) (fen g)
                (λ _ _, eq_refl) w1) as Hk.
  assert (Hlog : moveHistory (react (fst (getBestMove svc (fen g) w1)))
                 = moveHistory (react w)) by (by rewrite Hk).
  destruct (getBestMove svc (fen g) w1) as [w2 [engineMove|]];
    simpl in Hlog; rewrite <- Hlog; clear Hk Hlog; [|done].
  destruct (present engineMove); run_h; simpl; [|done].
  destruct (newChessFen (fen g)) as [c|]; simpl; [|done].
  destruct (move c (MoveSan (default "" engineMove))) as [c' m| |]; simpl;
    first [done | by eexists [_]].
Qed.

(** After an accepted move the chat commentary and the engine's reply
    leave the recorded position in the log. *)
Lemma afterAcceptedMove_appends (snap : Session svc) (moved : Chess)
    (result : Move) (w : World svc) :
  exists tail,
    moveHistory
      (react (fst (try_catch svc
                     (_ ← afterAcceptedMove svc snap moved result; mret true)
                     (mret false) w)))
    = (moveHistory (react w) ++ tail)%list.
Proof.
  assert (Hfst : forall m : H svc unit,
            fst (try_catch svc (_ ← m; mret true) (mret false) w)
            = fst (m w)).
  { intros m. unfold try_catch, mbind, H_bind.
    by destruct (m w) as [w' [[]|]]. }
  unfold afterAcceptedMove. destruct (chatMode snap).
  - exists []. rewrite app_nil_r.
    assert (Hk : keeps (λ w, moveHistory (react w))
                   (try_catch svc
                      (_ ← afterAcceptedMove svc
                             (with_chatMode true snap) moved result;
                       mret true)
                      (mret false))).
    { unfold afterAcceptedMove. cbn [chatMode with_chatMode].
      repeat first [apply keeps_analyzePosition; keeps_side | keeps_step]. }
    specialize (Hk w). unfold afterAcceptedMove in Hk.
    cbn [chatMode with_chatMode] in Hk. exact Hk.
  - rewrite Hfst. destruct (_ && _); [apply makeEngineMove_appends|].
    exists []. by rewrite app_nil_r.
Qed.

(** What [makeMove] does is the library's answer to the object it
    builds. *)
Lemma makeMove_answers (w : World svc) (mv : MoveRequest) (gameCopy : Chess) :
  isPgnMode (react w) = false ->
  newChessFen (fen (game (react w))) = Some gameCopy ->
  passed_to_rules svc w mv gameCopy (engineRequest gameCopy mv).
Proof.
  intros Hpgn Hcopy. unfold passed_to_rules. cbv zeta.
  destruct (move gameCopy (engineRequest gameCopy mv))
    as [moved result| |] eqn:Hmove.
  - rewrite (makeMove_accepted _ _ _ _ _ _ Hpgn Hcopy Hmove). split.
    + destruct (afterAcceptedMove_appends (react w) moved result
                  (with_react (recordMove moved (react w)) w))
        as [tail ->].
      simpl. rewrite <- app_assoc. by apply list_lookup_middle.
    + assert (Hk : keeps (λ w, fullMoveHistory (react w))
                     (try_catch svc
                        (_ ← afterAcceptedMove svc (react w) moved result;
                         mret true)
                        (mret false))).
      { unfold afterAcceptedMove.
        repeat first
          [ apply keeps_analyzePosition; keeps_side
          | apply keeps_makeEngineMove; keeps_side
          | keeps_step ]. }
      by rewrite Hk.
  - unfold makeMove. rewrite Hpgn. run_h. rewrite Hcopy. simpl.
    by rewrite Hmove.
  - unfold makeMove. rewrite Hpgn. run_h. rewrite Hcopy. simpl.
    by rewrite Hmove.
Qed.

(** C9.  On a request that supplies no promotion piece, which is what
    [onDrop] hands over, [makeMove] passes the rules library the
    squares with promotion [q] when the moved piece is a pawn whose
    target square is on the last rank for its colour (rank 8 for
    white, rank 1 for black), and the squares with no promotion piece
    in every other case. *)
Theorem makeMove_queen_promotion (w : World svc) (mv : MoveRequest)
    (gameCopy : Chess) :
  isPgnMode (react w) = false ->
  newChessFen (fen (game (react w))) = Some gameCopy ->
  mv_promotion mv = None ->
  (pawn_reaches_last_rank gameCopy mv ->
   passed_to_rules svc w mv gameCopy
     (MoveObj (mv_from mv) (mv_to mv) (Some "q")))
  /\ (~ pawn_reaches_last_rank gameCopy mv ->
      passed_to_rules svc w mv gameCopy
        (MoveObj (mv_from mv) (mv_to mv) None)).
Proof.
  intros Hpgn Hcopy _.
  pose proof (makeMove_answers w mv gameCopy Hpgn Hcopy) as Hanswer.
  unfold engineRequest in Hanswer.
  destruct (isPromotion gameCopy mv) eqn:Hp.
  - split; [done|]. intros Hnot. by apply isPromotion_spec in Hp.
  - split; [|done]. intros Hpawn. apply isPromotion_spec in Hpawn.
    congruence.
Qed.

(** X22.  makeMove plays on a copy rebuilt from the FEN, whose history
    is empty; when the library records the move in that history,
    fullMoveHistory after an accepted move is the one-element list of
    that move's SAN, in every mode and whatever it held before. *)
Theorem makeMove_notation_is_last_move (snap : Session svc) (w : World svc)
    (mv : MoveRequest) (gameCopy moved : Chess) (result : Move) :
  isPgnMode snap = false ->
  newChessFen (fen (game snap)) = Some gameCopy ->
  move gameCopy (engineRequest gameCopy mv) = Moved moved result ->
  history gameCopy = [] ->
  history moved = (history gameCopy ++ [san result])%list ->
  fullMoveHistory (react (fst (makeMove svc snap mv w))) = [san result].
Proof.
  intros Hpgn Hcopy Hmove Hfresh Hpush.
  rewrite (makeMove_accepted _ _ _ _ _ _ Hpgn Hcopy Hmove).
  assert (Hk : keeps (λ w, fullMoveHistory (react w))
                 (try_catch svc
                    (_ ← afterAcceptedMove svc snap moved result; mret true)
                    (mret false))).
  { unfold afterAcceptedMove.
    repeat first
      [ apply keeps_analyzePosition; keeps_side
      | apply keeps_makeEngineMove; keeps_side
      | keeps_step ]. }
  rewrite Hk. simpl. by rewrite Hpush, Hfresh.
Qed.

(** X23.  In chat mode with the narrative client unavailable, an
    accepted move records the move, appends exactly a 'player' entry
    and an 'ai' entry whose text is the AI Analysis header followed by
    the placeholder (no opening or evaluation section), sends no
    request, ends with engineThinking false and returns true. *)
Theorem chat_move_without_narrative (snap : Session svc) (w : World svc)
    (mv : MoveRequest) (gameCopy moved c : Chess) (result : Move) :
  isPgnMode snap = false ->
  chatMode snap = true ->
  narrativeUnavailable (engine w) = true ->
  newChessFen (fen (game snap)) = Some gameCopy ->
  move gameCopy (engineRequest gameCopy mv) = Moved moved result ->
  newChessFen (fen moved) = Some c ->
  makeMove svc snap mv w
  = (with_react
       (with_engineThinking false
          (with_chatHistory
             (chatHistory (react w)
                ++ [{| role := "player";
                       content := "Played move: " +:+ san result |};
                    {| role := "ai";
                       content :=
                         "🤖 AI Analysis:" +:+ nl +:+
                         "Please provide a valid Gemini API key to enable position analysis." |}])
             (recordMove moved (react w)))) w,
     Returned true).
Proof.
  intros Hpgn Hchat Hun Hcopy Hmove Hc.
  rewrite (makeMove_accepted _ _ _ _ _ _ Hpgn Hcopy Hmove).
  unfold afterAcceptedMove. rewrite Hchat.
  unfold try_catch, mbind, H_bind, setState, modify. simpl.
  rewrite (analyzePosition_unavailable svc _ (fen moved) c); [|done..].
  simpl. rewrite <- app_assoc. simpl. by destruct w as [[] ? ? ? ? ?].
Qed.

(** ** Mode flags *)

Lemma keeps_flags_makeMove (snap : Session svc) (mv : MoveRequest) :
  keeps (λ w, flags (react w)) (makeMove svc snap mv).
Proof.
  unfold makeMove.
  repeat first
    [ apply keeps_analyzePosition; keeps_side
    | apply keeps_makeEngineMove; keeps_side
    | keeps_step ].
Qed.

Lemma keeps_flags_handleUndoMove (snap : Session svc) :
  keeps (λ w, flags (react w)) (handleUndoMove svc snap).
Proof. unfold handleUndoMove. repeat keeps_step. Qed.

Lemma keeps_flags_navigateMove (snap : Session svc) (index : number) :
  keeps (λ w, flags (react w)) (navigateMove svc snap index).
Proof. unfold navigateMove. repeat keeps_step. Qed.

Lemma flags_makeEngineMove (g : Chess) :
  keeps (λ w, flags (react w)) (makeEngineMove svc g).
Proof. apply keeps_makeEngineMove; keeps_side. Qed.

Lemma modes_exclusive_of (s : Session svc) (pae chat pgn modal : bool) :
  flags s = (pae, chat, pgn, modal) ->
  (Nat.b2n pae + Nat.b2n chat + Nat.b2n pgn <= 1)%nat ->
  modes_exclusive s.
Proof. unfold flags, modes_exclusive. by intros [= -> -> -> _]. Qed.

Lemma modes_exclusive_same (s s' : Session svc) :
  flags s' = flags s -> modes_exclusive s -> modes_exclusive s'.
Proof.
  unfold flags, modes_exclusive. intros [= Hpae Hchat Hpgn _].
  by rewrite Hpae, Hchat, Hpgn.
Qed.

Lemma step_modes_exclusive (w : World svc) (e : Event) :
  modes_exclusive (react w) ->
  mode_safe (react w) e ->
  modes_exclusive (react (step svc w e)).
Proof.
  intros Hex Hsafe. unfold step.
  destruct (enabled (react w) e) eqn:Hen; [|done].
  unfold dispatch. rewrite afterRender_react.
  assert (Hsame : forall m : H svc unit,
            keeps (λ w, flags (react w)) m ->
            modes_exclusive (react (fst (m w)))).
  { intros m Hm. eapply modes_exclusive_same; [apply Hm|done]. }
  unfold modes_exclusive in Hex.
  destruct e; cbn [handler]; cbn [enabled] in Hen.
  - (* Drop *)
    apply Hsame. unfold onDrop.
    repeat first [apply keeps_flags_makeMove | keeps_step].
  - apply Hsame, keeps_flags_handleUndoMove.
  - by eapply (modes_exclusive_of _ false false false);
      [reflexivity|simpl; lia].
  - by apply Hsame; unfold handleFlipBoard; repeat keeps_step.
  - (* the engine button *)
    apply negb_true_iff, orb_false_iff in Hen as [Hchat Hpgn].
    destruct (playingAgainstEngine (react w)) eqn:Hpae.
    + by eapply (modes_exclusive_of _ false false false);
        [reflexivity|simpl; lia].
    + eapply (modes_exclusive_of _ false false false true);
        [unfold flags; simpl; by rewrite Hpae, Hpgn|simpl; lia].
  - (* a colour *)
    destruct Hsafe as [Hchat Hpgn].
    eapply (modes_exclusive_of _ true false false false); [|simpl; lia].
    unfold handleColorSelect. unfold mbind at 1 2 3 4 5 6 7 8 9, H_bind.
    cbn [setState modify fst snd]. case_bool_decide.
    + rewrite (flags_makeEngineMove _ _). unfold flags. simpl.
      by rewrite Hchat, Hpgn.
    + unfold flags. simpl. by rewrite Hchat, Hpgn.
  - by eapply (modes_exclusive_of _ (playingAgainstEngine (react w))
                 (chatMode (react w)) (isPgnMode (react w)) false);
      [reflexivity|].
  - (* chat mode *)
    apply negb_true_iff, orb_false_iff in Hen as [Hpae Hpgn].
    eapply (modes_exclusive_of _ false (negb (chatMode (react w))) false
              (showColorModal (react w)));
      [unfold flags; simpl; by rewrite Hpgn
      |destruct (chatMode (react w)); simpl; lia].
  - (* an import *)
    destruct file as [pgnText|]; [|done]. destruct Hsafe as [Hpae Hchat].
    eapply (modes_exclusive_of _ false false
              (isPgnMode (react (fst (handleImportPGN svc (Some pgnText) w))))
              (showColorModal
                 (react (fst (handleImportPGN svc (Some pgnText) w)))));
      [|destruct (isPgnMode (react (fst (handleImportPGN svc (Some pgnText) w))));
        simpl; lia].
    unfold flags.
    by rewrite (handleImportPGN_keeps_playingAgainstEngine svc _ w),
      (handleImportPGN_keeps_chatMode svc _ w), Hpae, Hchat.
  - by eapply (modes_exclusive_of _ false false false);
      [reflexivity|simpl; lia].
  - apply Hsame, keeps_flags_navigateMove.
  - apply Hsame, keeps_flags_navigateMove.
  - apply Hsame, keeps_flags_navigateMove.
  - apply Hsame, keeps_flags_navigateMove.
Qed.

Lemma modes_exclusive_mount (storage : gmap string string) :
  modes_exclusive (react (mount svc storage)).
Proof.
  unfold mount. rewrite afterRender_react, persistEffect_react.
  assert (Hk : keeps (λ w, (playingAgainstEngine (react w), chatMode (react w)))
                 (restoreEffect svc))
    by (unfold restoreEffect; repeat keeps_step).
  specialize (Hk (freshWorld svc storage)). simpl in Hk.
  injection Hk as Hpae Hchat.
  unfold modes_exclusive. rewrite Hpae, Hchat.
  destruct (isPgnMode _); simpl; lia.
Qed.

(** X24.  From any stored state, after any sequence of events in which
    every file import arrives while neither engine play nor chat mode
    is on, and every colour is chosen while neither chat mode nor PGN
    mode is on, at most one of playingAgainstEngine, chatMode and
    isPgnMode is set: no other event sets a second flag, whether or
    not the colour dialog is open. *)
Theorem modes_stay_exclusive (storage : gmap string string)
    (es : list Event) :
  mode_safe_run svc (mount svc storage) es ->
  modes_exclusive (react (run svc (mount svc storage) es)).
Proof.
  unfold run. generalize (modes_exclusive_mount storage).
  generalize (mount svc storage).
  induction es as [|e es IH]; [done|].
  intros w Hw [Hsafe Hrest]. simpl. apply IH; [|done].
  by apply step_modes_exclusive.
Qed.

(** ** Replay mode *)

Lemma replay_inv_not_pgn (s : Session svc) :
  isPgnMode s = false -> replay_inv s.
Proof. intros Hpgn. unfold replay_inv. by rewrite Hpgn. Qed.

Lemma replay_inv_same (s s' : Session svc) :
  isPgnMode s' = isPgnMode s ->
  currentMoveIndex s' = currentMoveIndex s ->
  moveHistory s' = moveHistory s ->
  replay_inv s -> replay_inv s'.
Proof.
  unfold replay_inv, cursor_in_range. by intros -> -> ->.
Qed.

(** A handler that leaves the flags alone cannot start a replay. *)
Lemma replay_inv_flags (w : World svc) (m : H svc unit) :
  keeps (λ w, flags (react w)) m ->
  isPgnMode (react w) = false ->
  replay_inv (react (fst (m w))).
Proof.
  intros Hm Hpgn. apply replay_inv_not_pgn.
  specialize (Hm w). unfold flags in Hm. injection Hm as _ _ Hm _.
  by rewrite Hm.
Qed.

Lemma import_replay_inv (w : World svc) (pgnText : string) :
  replay_inv (react w) ->
  replay_inv (react (fst (handleImportPGN svc (Some pgnText) w))).
Proof.
  intros Hinv.
  destruct (loadPgn pgnText) as [newGame|] eqn:Hload.
  - destruct (replayPositions (history newGame)) as [positions|] eqn:Hreplay.
    + rewrite (handleImportPGN_success svc _ _ _ _ Hload Hreplay). simpl.
      intros _.
      exists (Z.of_nat (length (history newGame)) - 1). split; [done|].
      simpl. rewrite (replayPositions_length _ _ Hreplay). lia.
    + rewrite (import_replay_failure svc _ _ _ Hload Hreplay). simpl.
      by eapply replay_inv_same.
  - unfold handleImportPGN. run_h. rewrite Hload. simpl. done.
Qed.

Lemma navigateMove_replay_inv (w : World svc) (index : number) :
  replay_inv (react w) ->
  replay_inv (react (fst (navigateMove svc (react w) index w))).
Proof.
  intros Hrange.
  pose proof (keeps_flags_navigateMove (react w) index w) as Hf.
  unfold flags in Hf. simpl in Hf. injection Hf as _ _ Hpgn _.
  unfold replay_inv. rewrite Hpgn.
  intros Hp. by apply navigateMove_range, Hrange.
Qed.

(** A colour choice empties the log and puts the cursor at -1, where
    the engine's opening move leaves it. *)
Lemma handleColorSelect_cursor_in_range (w : World svc) (color : Side) :
  cursor_in_range (react (fst (handleColorSelect svc color w))).
Proof.
  assert (Hk : forall g, keeps (λ w, currentMoveIndex (react w))
                           (makeEngineMove svc g))
    by (intros g; apply keeps_makeEngineMove; keeps_side).
  exists (-1). unfold handleColorSelect.
  unfold mbind at 1 2 3 4 5 6 7 8 9, H_bind.
  cbn [setState modify fst snd]. case_bool_decide.
  - rewrite (Hk _ _). split; [done|]. lia.
  - split; [done|]. simpl. lia.
Qed.

Lemma step_replay_inv (w : World svc) (e : Event) :
  replay_inv (react w) -> replay_inv (react (step svc w e)).
Proof.
  intros Hinv. unfold step.
  destruct (enabled (react w) e) eqn:Hen; [|done].
  unfold dispatch. rewrite afterRender_react.
  destruct e; cbn [handler]; cbn [enabled] in Hen.
  - (* Drop *)
    destruct (isPgnMode (react w)) eqn:Hpgn.
    + unfold onDrop. by rewrite Hpgn.
    + apply replay_inv_flags; [|done]. unfold onDrop.
      repeat first [apply keeps_flags_makeMove | keeps_step].
  - apply negb_true_iff, orb_false_iff in Hen as [_ Hpgn].
    apply replay_inv_flags; [apply keeps_flags_handleUndoMove|done].
  - by apply replay_inv_not_pgn.
  - by eapply replay_inv_same.
  - (* the engine button *)
    apply negb_true_iff, orb_false_iff in Hen as [_ Hpgn].
    destruct (playingAgainstEngine (react w));
      [by apply replay_inv_not_pgn|].
    apply replay_inv_not_pgn. simpl. exact Hpgn.
  - intros _. apply handleColorSelect_cursor_in_range.
  - by eapply replay_inv_same.
  - (* chat mode *)
    intros _. exists (-1). split; [done|]. simpl. lia.
  - destruct file as [pgnText|]; [by apply import_replay_inv|done].
  - by apply replay_inv_not_pgn.
  - by apply navigateMove_replay_inv.
  - by apply navigateMove_replay_inv.
  - by apply navigateMove_replay_inv.
  - by apply navigateMove_replay_inv.
Qed.

(** X25.  Starting without a saved game, after any sequence of events,
    whenever PGN mode is on the cursor is within [-1,
    len(moveHistory)-1]. *)
Theorem imported_replay_cursor_in_range (storage : gmap string string)
    (es : list Event) :
  present (storage !! "chessPgn") = false ->
  isPgnMode (react (run svc (mount svc storage) es)) = true ->
  cursor_in_range (react (run svc (mount svc storage) es)).
Proof.
  intros Hnone.
  assert (Hmount : mount svc storage = freshWorld svc storage).
  { unfold mount, restoreEffect. run_h. simpl. rewrite Hnone. simpl.
    apply (afterRender_same svc (freshWorld svc storage)). }
  rewrite Hmount.
  assert (Hinv : replay_inv (react (run svc (freshWorld svc storage) es))).
  { unfold run.
    assert (H0 : replay_inv (react (freshWorld svc storage)))
      by by apply replay_inv_not_pgn.
    revert H0. generalize (freshWorld svc storage).
    induction es as [|e es IH]; [done|].
    intros w Hw. simpl. by apply IH, step_replay_inv. }
  apply Hinv.
Qed.

(** ** The persisted resume state *)

Lemma afterRender_synced (before : Session svc) (w : World svc) :
  (persistDeps before = persistDeps (react w) -> synced w) ->
  synced (afterRender svc before w).
Proof.
  intros Hsame. unfold afterRender. case_bool_decide; [by apply Hsame|].
  unfold persistEffect, synced.
  destruct (isPgnMode (react w) && truthy (originalPgn (react w))) eqn:Hcond;
    simpl.
  - intros _ _. by simplify_map_eq.
  - intros Hpgn Htruthy. by rewrite Hpgn, Htruthy in Hcond.
Qed.

Lemma synced_same (w w1 : World svc) :
  persistDeps (react w) = persistDeps (react w1) ->
  localStorage w1 = localStorage w ->
  synced w -> synced w1.
Proof.
  unfold persistDeps, synced. intros [= Hpgn Htext Hcursor] Hstore.
  by rewrite Hstore, <- Hpgn, <- Htext, <- Hcursor.
Qed.

Lemma navigateMove_cases (snap : Session svc) (w : World svc)
    (index : number) :
  navigateMove svc snap index w
  = if num_in_range (-1) index (Z.of_nat (length (moveHistory snap))) then
      match navigationTarget snap index with
      | Some g =>
          let w1 :=
            with_react (with_game g (with_currentMoveIndex index (react w))) w in
          (if isPgnMode snap
           then with_localStorage
                  (<["chessMoveIndex" := num_toString index]> (localStorage w))
                  w1
           else w1,
           Returned tt)
      | None => (with_react (with_currentMoveIndex index (react w)) w, Threw)
      end
    else (w, Returned tt).
Proof.
  unfold navigateMove, navigationTarget.
  destruct (num_in_range _ _ _); [|done].
  case_bool_decide.
  - run_h. simpl. by destruct (isPgnMode snap).
  - destruct (@mbind option _ _ _ newChessFen _) as [g|]; run_h; simpl;
      [|done].
    by destruct (isPgnMode snap).
Qed.

Lemma navigateMove_synced (w : World svc) (index : number) :
  synced w ->
  persistDeps (react w)
  = persistDeps (react (fst (navigateMove svc (react w) index w))) ->
  synced (fst (navigateMove svc (react w) index w)).
Proof.
  intros Hsync. rewrite navigateMove_cases.
  destruct (num_in_range _ _ _); [|done].
  destruct (navigationTarget (react w) index) as [g|]; simpl.
  - intros _. destruct (isPgnMode (react w)) eqn:Hpgn.
    + unfold synced. simpl. intros _ Htruthy.
      destruct (Hsync Hpgn Htruthy) as [Htext _]. by simplify_map_eq.
    + unfold synced. simpl. by rewrite Hpgn.
  - intros Hdeps. by eapply synced_same.
Qed.

Lemma handleImportPGN_synced (w : World svc) (file : option string) :
  synced w ->
  persistDeps (react w)
  = persistDeps (react (fst (handleImportPGN svc file w))) ->
  synced (fst (handleImportPGN svc file w)).
Proof.
  intros Hsync. destruct file as [pgnText|]; [|done].
  destruct (loadPgn pgnText) as [newGame|] eqn:Hload.
  - destruct (replayPositions (history newGame)) as [positions|] eqn:Hreplay.
    + rewrite (handleImportPGN_success svc _ _ _ _ Hload Hreplay).
      intros _. unfold synced. simpl. intros _ _. by simplify_map_eq.
    + rewrite (import_replay_failure svc _ _ _ Hload Hreplay). simpl.
      intros Hdeps. by eapply synced_same.
  - unfold handleImportPGN. run_h. rewrite Hload. simpl.
    intros Hdeps. by eapply synced_same.
Qed.

Lemma dispatch_synced (w : World svc) (e : Event) :
  synced w -> synced (dispatch svc w e).
Proof.
  intros Hsync. unfold dispatch. apply afterRender_synced.
  assert (Hkeep : forall m : H svc unit,
            keeps localStorage m ->
            persistDeps (react w) = persistDeps (react (fst (m w))) ->
            synced (fst (m w))).
  { intros m Hm Hdeps. eapply synced_same; [done|apply Hm|done]. }
  assert (Hoff : forall w1 : World svc,
            isPgnMode (react w1) = false -> synced w1).
  { intros w1 Hpgn. unfold synced. by rewrite Hpgn. }
  destruct e; cbn [handler].
  - apply Hkeep. unfold onDrop, makeMove.
    repeat first
      [ apply keeps_analyzePosition; keeps_side
      | apply keeps_makeEngineMove; keeps_side
      | keeps_step ].
  - apply Hkeep. unfold handleUndoMove. repeat keeps_step.
  - intros _. by apply Hoff.
  - apply Hkeep. unfold handleFlipBoard. repeat keeps_step.
  - destruct (playingAgainstEngine (react w)).
    + intros _. by apply Hoff.
    + apply Hkeep. unfold handlePlayEngine. repeat keeps_step.
  - apply Hkeep. unfold handleColorSelect.
    repeat first [apply keeps_makeEngineMove; keeps_side | keeps_step].
  - apply Hkeep. repeat keeps_step.
  - apply Hkeep. unfold handleChatMode. repeat keeps_step.
  - by apply handleImportPGN_synced.
  - intros _. by apply Hoff.
  - by apply navigateMove_synced.
  - by apply navigateMove_synced.
  - by apply navigateMove_synced.
  - by apply navigateMove_synced.
Qed.

(** X26.  From any stored state and after any sequence of events,
    whenever PGN mode is on with a non-empty original PGN,
    localStorage holds exactly that PGN text under 'chessPgn' and the
    text of the current cursor under 'chessMoveIndex'. *)
Theorem storage_mirrors_replay (storage : gmap string string)
    (es : list Event) :
  synced (run svc (mount svc storage) es).
Proof.
  assert (Hmount : synced (mount svc storage)).
  { unfold mount. apply afterRender_synced. intros Hdeps.
    unfold synced. intros Hpgn. unfold persistDeps in Hdeps.
    injection Hdeps as Hd _ _. exfalso.
    assert (Hf : true = false); [|discriminate].
    rewrite <- Hpgn. symmetry. exact Hd. }
  unfold run. revert Hmount. generalize (mount svc storage).
  induction es as [|e es IH]; [done|].
  intros w Hw. simpl. apply IH. unfold step.
  destruct (enabled (react w) e); [by apply dispatch_synced|done].
Qed.


(** ** Jumping to a ply *)

Lemma afterRender_cursor_stored (before : Session svc) (w : World svc) :
  isPgnMode (react w) = true ->
  localStorage w !! "chessMoveIndex"
  = Some (num_toString (currentMoveIndex (react w))) ->
  localStorage (afterRender svc before w) !! "chessMoveIndex"
  = Some (num_toString (currentMoveIndex (react w))).
Proof.
  intros Hpgn Hstored. unfold afterRender. case_bool_decide; [done|].
  unfold persistEffect. rewrite Hpgn. simpl.
  destruct (truthy (originalPgn (react w))); simpl; [|done].
  by simplify_map_eq.
Qed.

(** X17.  Clicking move i of a log whose entry i loads back to the
    same FEN sets the cursor to i and the board to that entry, so the
    cursor is in range and the board shows Move Log[cursor]; in PGN
    mode the stored cursor becomes the text of i. *)
Theorem navigate_shows_logged_position (w : World svc) (i : nat)
    (entry : string) (g : Chess) :
  moveHistory (react w) !! i = Some entry ->
  newChessFen entry = Some g ->
  fen g = entry ->
  let w' := dispatch svc w (ClickMove i) in
  currentMoveIndex (react w') = Num (Z.of_nat i)
  /\ game (react w') = g
  /\ moveHistory (react w') = moveHistory (react w)
  /\ cursor_in_range (react w')
  /\ cursor_shows_board (react w')
  /\ (isPgnMode (react w) = true ->
      localStorage w' !! "chessMoveIndex" = Some (pretty (Z.of_nat i))).
Proof.
  intros Hentry Hload Hfen w'. pose proof (lookup_lt_Some _ _ _ Hentry) as Hlt.
  assert (Hnav : navigateMove svc (react w) (Num (Z.of_nat i)) w
    = (let w1 := with_react
                   (with_game g
                      (with_currentMoveIndex (Num (Z.of_nat i)) (react w))) w in
       if isPgnMode (react w)
       then with_localStorage
              (<["chessMoveIndex" := num_toString (Num (Z.of_nat i))]>
                 (localStorage w)) w1
       else w1,
       Returned tt)).
  { rewrite navigateMove_cases. unfold navigationTarget. simpl.
    assert (Hin : (-1 <=? Z.of_nat i) && (Z.of_nat i <? Z.of_nat (length (moveHistory (react w)))) = true).
    { apply andb_true_iff. split; [apply Z.leb_le|apply Z.ltb_lt]; lia. }
    rewrite Hin. rewrite bool_decide_eq_false_2 by (intros [= ?]; lia).
    by rewrite Nat2Z.id, Hentry; simpl; rewrite Hload. }
  assert (Hreact : react w'
    = with_game g (with_currentMoveIndex (Num (Z.of_nat i)) (react w))).
  { unfold w', dispatch, handler. rewrite afterRender_react, Hnav. simpl.
    by destruct (isPgnMode (react w)). }
  rewrite Hreact. simpl. repeat split; try done.
  - exists (Z.of_nat i). split; [done|]. simpl. lia.
  - unfold cursor_shows_board, displayed. simpl.
    rewrite (proj2 (Z.eqb_neq _ _)) by lia. by rewrite Nat2Z.id, Hfen.
  - intros Hpgn. unfold w', dispatch, handler. rewrite Hnav. simpl.
    rewrite Hpgn.
    apply (afterRender_cursor_stored (react w)
             (with_localStorage
                (<["chessMoveIndex" := pretty (Z.of_nat i)]> (localStorage w))
                (with_react
                   (with_game g
                      (with_currentMoveIndex (Num (Z.of_nat i)) (react w))) w)));
      simpl; [done|by simplify_map_eq].
Qed.

(** X18.  Start always succeeds, whatever the log: the cursor becomes
    -1, the board a new game, the log is kept, the cursor invariant
    holds, and in PGN mode the stored cursor becomes '-1'. *)
Theorem navigate_to_start (w : World svc) :
  let w' := dispatch svc w ClickStart in
  currentMoveIndex (react w') = Num (-1)
  /\ game (react w') = newChess
  /\ moveHistory (react w') = moveHistory (react w)
  /\ cursor_in_range (react w')
  /\ cursor_shows_board (react w')
  /\ (isPgnMode (react w) = true ->
      localStorage w' !! "chessMoveIndex" = Some "-1").
Proof.
  intros w'.
  assert (Hnav : navigateMove svc (react w) (Num (-1)) w
    = (let w1 := with_react
                   (with_game newChess
                      (with_currentMoveIndex (Num (-1)) (react w))) w in
       if isPgnMode (react w)
       then with_localStorage
              (<["chessMoveIndex" := "-1"]> (localStorage w)) w1
       else w1,
       Returned tt)).
  { rewrite navigateMove_cases. unfold navigationTarget. simpl.
    assert (Hin : (-1 <? Z.of_nat (length (moveHistory (react w)))) = true)
      by (apply Z.ltb_lt; lia).
    by rewrite Hin. }
  assert (Hreact : react w'
    = with_game newChess (with_currentMoveIndex (Num (-1)) (react w))).
  { unfold w', dispatch, handler. rewrite afterRender_react, Hnav. simpl.
    by destruct (isPgnMode (react w)). }
  rewrite Hreact. simpl. repeat split; try done.
  - exists (-1). split; [done|]. simpl. lia.
  - intros Hpgn. unfold w', dispatch, handler. rewrite Hnav. simpl.
    rewrite Hpgn.
    apply (afterRender_cursor_stored (react w)
             (with_localStorage
                (<["chessMoveIndex" := "-1"]> (localStorage w))
                (with_react
                   (with_game newChess
                      (with_currentMoveIndex (Num (-1)) (react w))) w)));
      simpl; [done|by simplify_map_eq].
Qed.

End SessionProperties.

Section DialogProperties.
Context `{E : RulesEngine} (svc : Services).

Lemma truthy_trim (s : string) : truthy (trim s) = trim_nonempty s.
Proof. unfold trim_nonempty. by destruct (trim s). Qed.

(** A white-space character at the head of a text is skipped. *)
Lemma skip_space_white (t s : string) :
  t ∈ white_space -> skip_space (t +:+ s) = skip_space s.
Proof.
  intros Ht. unfold white_space in Ht. cbn in Ht.
  repeat (apply elem_of_cons in Ht as [->|Ht]; [reflexivity|]).
  by apply elem_of_nil in Ht.
Qed.

(** A text made of white space only trims to the empty string. *)
Lemma trim_white (pieces : list string) :
  Forall (λ t, t ∈ white_space) pieces -> trim (join pieces) = "".
Proof.
  intros Hall. unfold trim.
  assert (Hskip : skip_space (join pieces) = "").
  { induction Hall as [|t pieces Ht _ IH]; [done|].
    unfold join. cbn [foldr]. by rewrite skip_space_white. }
  by rewrite Hskip.
Qed.

(** ** The key dialog *)

(** X27.  handleApiKeySubmit sets the status to valid and closes the
    dialog exactly when the typed key starts with [AIza], otherwise
    sets it to invalid and leaves the dialog and the engine as they
    were; only the engine object changes in the world, and a valid
    status still leaves the narrative client unavailable when the SDK
    constructor throws. *)
Theorem handleApiKeySubmit_status (p : Page svc) :
  let p' := handleApiKeySubmit svc p in
  let accepted := startsWith (apiKeyInput p) "AIza" in
  apiKeyStatus p' = (if accepted then KeyValid else KeyInvalid)
  /\ showApiKey p' = (if accepted then false else showApiKey p)
  /\ engine (world p')
     = (if accepted
        then initializeAI svc
               {| genAI := genAI (engine (world p));
                  model := model (engine (world p));
                  apiKey := apiKeyInput p;
                  isInitialized := isInitialized (engine (world p)) |}
        else engine (world p))
  /\ narrativeUnavailable (engine (world p'))
     = (if accepted
        then negb (bool_decide (is_Some (sdk_model svc (apiKeyInput p))))
        else narrativeUnavailable (engine (world p)))
  /\ with_engine (engine (world p)) (world p') = world p.
Proof.
  intros p' accepted. unfold p', accepted, handleApiKeySubmit, setApiKey.
  rewrite validateApiKey_startsWith. cbn [world apiKeyStatus showApiKey].
  destruct (startsWith (apiKeyInput p) "AIza") eqn:Hkey; cbn [fst].
  - repeat split; [|by destruct (world p)].
    unfold initializeAI, narrativeUnavailable. simpl.
    rewrite validateApiKey_startsWith, Hkey. simpl.
    destruct (sdk_model svc (apiKeyInput p)); simpl;
      [by rewrite validateApiKey_startsWith, Hkey|done].
  - repeat split. by destruct (world p).
Qed.

(** ** The chat box *)

(** X28.  Submitting a chat box that holds only white space, in any
    number and mix of the white space and line terminators that
    [trim] strips (the no-break space and the other Unicode blanks
    among them), changes nothing. *)
Theorem handleChatSubmit_blank (p : Page svc) (pieces : list string) :
  Forall (λ t, t ∈ white_space) pieces ->
  chatInput p = join pieces ->
  handleChatSubmit svc p = p.
Proof.
  intros Hall Hinput. unfold handleChatSubmit.
  by rewrite Hinput, (trim_white _ Hall).
Qed.

(** X29.  Submitting a non-blank question clears the box and appends
    exactly two entries, the trimmed question as 'user' and one 'ai'
    reply, ends with engineThinking false and changes nothing else in
    the session, storage or engine; the reply is the apology when the
    analysis throws and the header plus placeholder when the narrative
    client is unavailable. *)
Theorem handleChatSubmit_reply (p : Page svc) :
  trim_nonempty (chatInput p) = true ->
  let p' := handleChatSubmit svc p in
  let s := react (world p) in
  let s' := react (world p') in
  chatInput p' = ""
  /\ (exists reply,
        chatHistory s'
        = (chatHistory s
           ++ [{| role := "user"; content := trim (chatInput p) |};
               {| role := "ai"; content := reply |}])%list
        /\ (newChessFen (fen (game s)) = None -> reply = apology)
        /\ (forall c, newChessFen (fen (game s)) = Some c ->
              narrativeUnavailable (engine (world p)) = true ->
              reply
              = "🤖 AI Analysis:" +:+ nl +:+
                "Please provide a valid Gemini API key to enable position analysis."))
  /\ engineThinking s' = false
  /\ with_engineThinking (engineThinking s) (with_chatHistory (chatHistory s) s')
     = s
  /\ localStorage (world p') = localStorage (world p)
  /\ engine (world p') = engine (world p).
Proof.
  intros Hinput p' s s'. unfold s', p', handleChatSubmit.
  rewrite truthy_trim, Hinput. cbn [negb]. cbv zeta.
  set (w1 := thinking svc true (say svc "user" (trim (chatInput p)) (world p))).
  destruct (newChessFen (fen (game (react (world p))))) as [c|] eqn:Hfen.
  - destruct (analyzePosition_returns svc w1 _ c Hfen)
      as (w2 & a & Hrun & Hframe & _ & _).
    rewrite Hrun. cbn [world].
    assert (Hw2 : w2 = with_requests (requests w2) w1).
    { rewrite <- Hframe. by destruct w2. }
    split; [done|]. rewrite Hw2. unfold w1, thinking, say. simpl.
    split.
    + exists (formatResponse svc a). rewrite <- ?app_assoc. split; [done|].
      unfold s. split; [intros Hnone; congruence|]. intros c' Hc' Hun.
      rewrite (analyzePosition_unavailable svc w1 _ c) in Hrun by done.
      by injection Hrun as _ <-.
    + repeat split; try done. unfold s. by destruct (react (world p)).
  - rewrite (analyzePosition_bad_fen svc w1 _ Hfen). cbn [world].
    split; [done|]. unfold w1, thinking, say. simpl. split.
    + exists apology. rewrite <- ?app_assoc. split; [done|].
      unfold s. split; [done|]. intros c Hc. congruence.
    + repeat split; try done. unfold s. by destruct (react (world p)).
Qed.

(** ** The Analyze button *)

(** X30.  handleAnalyze, on a board whose FEN loads, ends with
    isAnalyzing false and an analysis record set, changing no other
    session cell (the fallback record and no request when the
    narrative client is unavailable); if the FEN does not load, the
    uncaught throw leaves isAnalyzing set and the world unchanged. *)
Theorem handleAnalyze_result (p : Page svc) :
  let p' := handleAnalyze svc p in
  let s := react (world p) in
  (newChessFen (fen (game s)) = None ->
   isAnalyzing p' = true /\ world p' = world p)
  /\ (forall c, newChessFen (fen (game s)) = Some c ->
        isAnalyzing p' = false
        /\ is_Some (analysis (react (world p')))
        /\ with_analysis (analysis s) (react (world p')) = s
        /\ (narrativeUnavailable (engine (world p)) = true ->
            analysis (react (world p')) = Some (fallbackAnalysis svc c)
            /\ requests (world p') = requests (world p))).
Proof.
  intros p' s. unfold p', s, handleAnalyze. split.
  - intros Hfen. by rewrite (analyzePosition_bad_fen svc _ _ Hfen).
  - intros c Hfen.
    destruct (analyzePosition_returns svc (world p) _ c Hfen)
      as (w2 & a & Hrun & Hframe & _ & _).
    rewrite Hrun. cbn [world isAnalyzing]. split; [done|]. split; [by eexists|].
    split.
    + rewrite <- Hframe. simpl. by destruct (react w2).
    + intros Hun.
      rewrite (analyzePosition_unavailable svc (world p) _ c) in Hrun by done.
      by injection Hrun as <- <-.
Qed.

End DialogProperties.

(** * More concrete runs *)

Section MoreRuns.

Import MiniChess.

(** X6 at a concrete input. *)
Lemma analyzePosition_total_witness :
  newChessFen (node_fen AfterE4) = Some {| node := AfterE4; hist := [] |}
  /\ exists w' a,
       analyzePosition services (node_fen AfterE4) keyedPage = (w', Returned a)
       /\ with_requests (requests keyedPage) w' = keyedPage.
Proof.
  split; [vm_compute; reflexivity|].
  destruct (analyzePosition_total services keyedPage (node_fen AfterE4)
              {| node := AfterE4; hist := [] |})
    as (w' & a & Hrun & Hframe & _); [vm_compute; reflexivity|].
  by exists w', a.
Defined.

(** X7 at a concrete input. *)
Lemma narrative_failure_discards_lookups_witness :
  narrativeUnavailable (engine keyedSilentPage) = false
  /\ snd (analyzePosition silentServices (node_fen AfterE4) keyedSilentPage)
     = Returned (fallbackAnalysis silentServices
                   {| node := AfterE4; hist := [] |})
  /\ length (requests
               (fst (analyzePosition silentServices (node_fen AfterE4)
                       keyedSilentPage))) = 3%nat.
Proof.
  split; [vm_compute; reflexivity|].
  rewrite (narrative_failure_discards_lookups silentServices keyedSilentPage
             (node_fen AfterE4) {| node := AfterE4; hist := [] |} []);
    [|vm_compute; reflexivity..].
  split; reflexivity.
Defined.

(** X8 at a concrete input. *)
Lemma analysis_of_fen_board_witness :
  narrativeUnavailable (engine keyedPage) = false
  /\ history ({| node := AfterE4; hist := [] |} : Chess) = []
  /\ getGamePhase ({| node := AfterE4; hist := [] |} : Chess) <> "Middlegame"
  /\ length (requests (fst (analyzePosition services (node_fen AfterE4)
                              keyedPage))) = 3%nat.
Proof.
  split; [vm_compute; reflexivity|]. split; [reflexivity|].
  destruct (analysis_of_fen_board services keyedPage (node_fen AfterE4)
              {| node := AfterE4; hist := [] |})
    as [Hphase Hreq]; [vm_compute; reflexivity..|].
  split; [exact Hphase|]. by rewrite Hreq.
Defined.

(** X5 at a concrete input. *)
Lemma convertMovesToUCI_shape_witness :
  convertMovesToUCI ["e4"; "e5"] = Some ["e2e4"; "e7e5"]
  /\ (length ["e2e4"; "e7e5"] <= length ["e4"; "e5"])%nat.
Proof.
  split; [vm_compute; reflexivity|].
  apply (convertMovesToUCI_shape ["e4"; "e5"] ["e2e4"; "e7e5"]).
  vm_compute; reflexivity.
Defined.

(** X10 at a concrete input. *)
Lemma makeMove_refused_witness :
  dispatch services page (Drop "e2" "e5") = page.
Proof.
  apply (makeMove_refused services page
           {| mv_from := "e2"; mv_to := "e5"; mv_promotion := None |}).
  intros gameCopy c m Hcopy. vm_compute in Hcopy. injection Hcopy as <-.
  vm_compute. discriminate.
Defined.

(** X11 at a concrete input. *)
Lemma onDrop_out_of_turn_witness :
  playingAgainstEngine waitingForEngine = true
  /\ onDrop services waitingForEngine "e2" "e4" page = (page, Returned false).
Proof.
  split; [reflexivity|].
  apply (onDrop_out_of_turn services waitingForEngine page "e2" "e4");
    [reflexivity|left; split; vm_compute; reflexivity].
Defined.

(** X12 at a concrete input. *)
Lemma handleUndoMove_nothing_to_undo_witness :
  moveHistory (react page) = []
  /\ dispatch services page ClickTakeBack = page.
Proof.
  split; [reflexivity|].
  apply (handleUndoMove_nothing_to_undo services page). by left.
Defined.

(** X15 at a concrete input. *)
Lemma navigateMove_out_of_range_witness :
  currentMoveIndex (react replayPage) = Num 1
  /\ length (moveHistory (react replayPage)) = 2%nat
  /\ dispatch services replayPage ClickNext = replayPage.
Proof.
  split; [vm_compute; reflexivity|]. split; [vm_compute; reflexivity|].
  apply (navigateMove_out_of_range services replayPage (Num 2));
    vm_compute; reflexivity.
Defined.

(** X16 at a concrete input. *)
Lemma navigation_stays_in_range_witness :
  cursor_in_range (react replayPage)
  /\ cursor_in_range (react (dispatch services replayPage ClickPrev)).
Proof.
  assert (Hin : cursor_in_range (react replayPage)).
  { exists 1. split; [vm_compute; reflexivity|]. vm_compute. split; discriminate. }
  split; [exact Hin|].
  apply (navigation_stays_in_range services replayPage ClickPrev);
    [by left|exact Hin].
Defined.

(** X17 at a concrete input. *)
Lemma navigate_shows_logged_position_witness :
  moveHistory (react replayPage) !! 0%nat = Some (node_fen AfterE4)
  /\ cursor_shows_board (react (dispatch services replayPage (ClickMove 0)))
  /\ localStorage (dispatch services replayPage (ClickMove 0))
       !! "chessMoveIndex" = Some "0".
Proof.
  split; [vm_compute; reflexivity|].
  destruct (navigate_shows_logged_position services replayPage 0
              (node_fen AfterE4) {| node := AfterE4; hist := [] |})
    as (_ & _ & _ & _ & Hshows & Hstored); [vm_compute; reflexivity..|].
  split; [exact Hshows|]. apply Hstored. vm_compute; reflexivity.
Defined.

(** X19 at a concrete input. *)
Lemma mount_without_saved_game_witness :
  present (cursorOnly !! "chessPgn") = false
  /\ mount services cursorOnly = freshWorld services cursorOnly.
Proof.
  split; [vm_compute; reflexivity|].
  apply (mount_without_saved_game services cursorOnly). vm_compute; reflexivity.
Defined.

(** X20 at a concrete input. *)
Lemma mount_discards_unreadable_game_witness :
  unreadable !! "chessPgn" = Some "not a pgn"
  /\ loadPgn "not a pgn" = None
  /\ react (mount services unreadable) = initialSession services
  /\ localStorage (mount services unreadable) !! "chessMoveIndex" = None.
Proof.
  split; [vm_compute; reflexivity|]. split; [vm_compute; reflexivity|].
  rewrite (mount_discards_unreadable_game services unreadable "not a pgn");
    [|vm_compute; reflexivity..].
  split; [reflexivity|vm_compute; reflexivity].
Defined.

(** X21 at a concrete input. *)
Lemma makeEngineMove_without_suggestion_witness :
  cloud_eval services (node_fen AfterE4E5) 1 = None
  /\ game (react (fst (makeEngineMove services afterTwoPlies page)))
     = game (react page)
  /\ moveHistory (react (fst (makeEngineMove services afterTwoPlies page))) = []
  /\ engineThinking (react (fst (makeEngineMove services afterTwoPlies page)))
     = false.
Proof.
  split; [vm_compute; reflexivity|].
  rewrite (makeEngineMove_without_suggestion services afterTwoPlies
             afterTwoPlies page); [|vm_compute; reflexivity..].
  repeat split.
Defined.

(** X22 at a concrete input. *)
Lemma makeMove_notation_is_last_move_witness :
  fullMoveHistory (react engineOpened) = []
  /\ moveHistory (react engineOpened) = [node_fen AfterE4]
  /\ fullMoveHistory
       (react (fst (makeMove services (react engineOpened)
                      {| mv_from := "e7"; mv_to := "e5";
                         mv_promotion := None |} engineOpened)))
     = ["e5"].
Proof.
  split; [vm_compute; reflexivity|]. split; [vm_compute; reflexivity|].
  apply (makeMove_notation_is_last_move services (react engineOpened)
           engineOpened
           {| mv_from := "e7"; mv_to := "e5"; mv_promotion := None |}
           {| node := AfterE4; hist := [] |}
           {| node := AfterE4E5; hist := ["e5"] |}
           {| san := "e5"; mfrom := "e7"; mto := "e5"; mpromotion := None |});
    vm_compute; reflexivity.
Defined.

(** X23 at a concrete input. *)
Lemma chat_move_without_narrative_witness :
  chatMode (react chatPage) = true
  /\ narrativeUnavailable (engine chatPage) = true
  /\ length (chatHistory
               (react (fst (makeMove services (react chatPage)
                              {| mv_from := "e2"; mv_to := "e4";
                                 mv_promotion := None |} chatPage)))) = 2%nat
  /\ requests (fst (makeMove services (react chatPage)
                      {| mv_from := "e2"; mv_to := "e4";
                         mv_promotion := None |} chatPage)) = [].
Proof.
  split; [vm_compute; reflexivity|]. split; [vm_compute; reflexivity|].
  rewrite (chat_move_without_narrative services (react chatPage) chatPage
             {| mv_from := "e2"; mv_to := "e4"; mv_promotion := None |}
             fresh {| node := AfterE4; hist := ["e4"] |}
             {| node := AfterE4; hist := [] |}
             {| san := "e4"; mfrom := "e2"; mto := "e4"; mpromotion := None |});
    [|vm_compute; reflexivity..].
  split; vm_compute; reflexivity.
Defined.

(** X24 at a concrete input. *)
Lemma modes_stay_exclusive_witness :
  mode_safe_run services (mount services ∅) mixedRun
  /\ modes_exclusive (react (run services (mount services ∅) mixedRun)).
Proof.
  assert (Hsafe : mode_safe_run services (mount services ∅) mixedRun)
    by (vm_compute; repeat split).
  split; [exact Hsafe|].
  apply (modes_stay_exclusive services ∅ mixedRun Hsafe).
Defined.

(** X25 at a concrete input: the replay is started behind the open
    colour dialog and the colour is chosen afterwards. *)
Lemma imported_replay_cursor_in_range_witness :
  isPgnMode (react (run services (mount services ∅) dialogRun)) = true
  /\ playingAgainstEngine (react (run services (mount services ∅) dialogRun))
     = true
  /\ currentMoveIndex (react (run services (mount services ∅) dialogRun))
     = Num (-1)
  /\ cursor_in_range (react (run services (mount services ∅) dialogRun)).
Proof.
  split; [vm_compute; reflexivity|]. split; [vm_compute; reflexivity|].
  split; [vm_compute; reflexivity|].
  apply (imported_replay_cursor_in_range services ∅ dialogRun);
    vm_compute; reflexivity.
Defined.

(** The hypothesis of X24 on the colour is needed: chat mode switched
    on behind the open colour dialog stays on when the colour is
    chosen. *)
Example chat_behind_colour_dialog :
  let w := run services (mount services ∅)
             [ClickEngineButton; ClickChatMode; ClickColor SideWhite] in
  playingAgainstEngine (react w) = true /\ chatMode (react w) = true.
Proof. split; vm_compute; reflexivity. Qed.

(** X28 at a concrete input. *)
Lemma handleChatSubmit_blank_witness :
  Forall (λ t, t ∈ white_space) blanks
  /\ handleChatSubmit services (asking (join blanks)) = asking (join blanks).
Proof.
  assert (Hall : Forall (λ t, t ∈ white_space) blanks)
    by (apply (bool_decide_unpack _); vm_compute; reflexivity).
  split; [exact Hall|].
  apply (handleChatSubmit_blank services (asking (join blanks)) blanks Hall).
  reflexivity.
Defined.

(** X29 at a concrete input. *)
Lemma handleChatSubmit_reply_witness :
  trim (chatInput (asking question)) = "why e4?"
  /\ chatInput (handleChatSubmit services (asking question)) = ""
  /\ engineThinking
       (react (world (handleChatSubmit services (asking question))))
     = false.
Proof.
  split; [vm_compute; reflexivity|].
  destruct (handleChatSubmit_reply services (asking question))
    as (Hinput & _ & Hthinking & _); [vm_compute; reflexivity|].
  split; [exact Hinput|exact Hthinking].
Defined.

(** C9 for the white pawn on a7 dropped on a8: the library is asked
    for a queen, and the queen is what the log and the notation show. *)
Lemma makeMove_queen_promotion_witness :
  pawn_reaches_last_rank (game endingSession) pawnDrop
  /\ onDrop services endingSession "a7" "a8" endingPage
     = makeMove services endingSession pawnDrop endingPage
  /\ moveHistory (react (fst (makeMove services endingSession pawnDrop
                                endingPage))) !! 0%nat
     = Some (node_fen QueenA8)
  /\ fullMoveHistory (react (fst (makeMove services endingSession pawnDrop
                                    endingPage)))
     = ["a8=Q+"].
Proof.
  assert (Hpawn : pawn_reaches_last_rank (game endingSession) pawnDrop)
    by (apply isPromotion_spec; vm_compute; reflexivity).
  split; [exact Hpawn|]. split; [reflexivity|].
  destruct (makeMove_queen_promotion services endingPage pawnDrop
              (game endingSession))
    as [Hqueen _]; [vm_compute; reflexivity..|].
  exact (Hqueen Hpawn).
Defined.

End MoreRuns.
